(** * The deliver handler of the orderer (orderer/common/deliver/deliver.go)

    A shallow embedding of [deliverServer.Handle] and of the two response
    helpers, together with the properties of the delivery protocol that the
    specification states about them.

    The handler is an event loop over a gRPC stream.  Everything it talks
    to (the stream, the chain registry, the policy filter, the ledger
    reader and its cursor, the protobuf decoders) is an interface in the
    source, and is an interface here: the class [DeliverEnv].  The handler
    itself is written in a small monad that threads the state of that
    environment, records every call that crosses the interface in a trace,
    and stops early when the Go function returns or suspends for ever. *)

From Stdlib Require Import ZArith List String Bool Lia Sorted.
Import ListNotations.
Local Open Scope Z_scope.

Set Implicit Arguments.

(** ** Machine data *)

Definition bytes : Type := list Byte.byte.

(** Go's [uint64]: an integer in [0, 2^64), arithmetic wraps around. *)
Definition uint64 : Type := Z.
Definition wrap64 (z : Z) : uint64 := z mod 2 ^ 64.
Definition is_uint64 (z : Z) : Prop := 0 <= z < 2 ^ 64.

(** Go's [error]; [None] is [nil]. *)
Definition error : Type := string.

(** ** protos/common (package [cb]) *)
Module cb.

(** Modelled from the spec: the enumeration [cb.Status] is declared in
    protos/common, which is not part of the sources at hand.  The
    specification names four codes and "ledger-reported failure codes";
    the latter are kept by their numeric value. *)
Inductive Status : Type :=
| Status_SUCCESS
| Status_BAD_REQUEST
| Status_FORBIDDEN
| Status_NOT_FOUND
| Status_code (n : Z).

Record BlockHeader : Type := {
  Number : uint64;
  PreviousHash : bytes;
  DataHash : bytes
}.

Record Block : Type := {
  Header : BlockHeader;
  Data : list bytes
}.

Record ChannelHeader : Type := {
  ChannelId : string
}.

(** [cb.Header].  The fields of [Header], [Payload] and [Envelope] are
    [ChannelHeader], [Header], [Data] and [Payload] in the source; they
    carry a mark here where a name is taken already. *)
Record Header_ : Type := {
  ChannelHeader_ : bytes;
  SignatureHeader : bytes
}.

(** [Payload.Header] is a pointer: [None] is [nil]. *)
Record Payload : Type := {
  PHeader : option Header_;
  PData : bytes
}.

Record Envelope : Type := {
  EPayload : bytes;
  Signature : bytes
}.

End cb.

(** ** protos/orderer (package [ab]) *)
Module ab.

(** The [oneof Type] of a [SeekPosition].  [SeekPosition_Specified] holds a
    [SeekSpecified] message, whose one field is the number; a decoded
    position never has it [nil]. *)
Inductive isSeekPosition_Type : Type :=
| SeekPosition_Oldest
| SeekPosition_Newest
| SeekPosition_Specified (Number : uint64).

(** A decoded [SeekPosition] whose oneof was left unset has [Type = nil]. *)
Record SeekPosition : Type := {
  Type_ : option isSeekPosition_Type
}.

Inductive SeekInfo_SeekBehavior : Type :=
| SeekInfo_BLOCK_UNTIL_READY
| SeekInfo_FAIL_IF_NOT_READY.

(** [Start] and [Stop] are pointers: [None] is [nil]. *)
Record SeekInfo : Type := {
  Start : option SeekPosition;
  Stop : option SeekPosition;
  Behavior : SeekInfo_SeekBehavior
}.

(** The [oneof Type] of a [DeliverResponse]. *)
Inductive DeliverResponse : Type :=
| DeliverResponse_Status (Status : cb.Status)
| DeliverResponse_Block (Block : cb.Block).

End ab.

(** ** orderer/common/filter *)
Module filter.

(** Modelled from the spec: the result type of the signature filter is
    declared in orderer/common/filter, outside the sources at hand.  The
    handler only distinguishes [Forward] from everything else. *)
Inductive Action : Type :=
| Accept
| Reject
| Forward.

End filter.

(** ** What crosses the interface *)

(** The three ways [srv.Recv()] comes back: [io.EOF], another error, or
    an envelope. *)
Inductive RecvResult : Type :=
| RecvEOF
| RecvError (err : error)
| RecvEnvelope (envelope : cb.Envelope).

(** One entry of the trace per call that acts on the stream or on the
    cursor, with what the call gave back. *)
Inductive Event : Type :=
| EvRecv (r : RecvResult)
    (* srv.Recv() *)
| EvSend (m : ab.DeliverResponse) (err : option error)
    (* srv.Send(m) *)
| EvIterator (number : uint64)
    (* chain.Reader().Iterator(seekInfo.Start) *)
| EvReadyWait
    (* <-cursor.ReadyChan(), returned *)
| EvReadyPoll (ready : bool)
    (* select { case <-cursor.ReadyChan(): default: } *)
| EvNext (block : cb.Block) (status : cb.Status).
    (* cursor.Next() *)

(** How a run of [Handle] ends. *)
Inductive Outcome : Type :=
| Returned (err : option error)  (* the Go function returned [err] *)
| Blocked                        (* suspended for ever, in Recv or on ReadyChan *)
| OutOfFuel.                     (* still running when the step budget ran out *)

(** A statement either completes with a value, or ends the whole run. *)
Inductive Res (A : Type) : Type :=
| Val (a : A)
| Halt (o : Outcome).
Arguments Halt {A} o.

(** ** The monad: environment state, early exit, trace *)
Section Monad.
Variable W : Type.

Definition M (A : Type) : Type := W -> Res A * W * list Event.

Definition ret {A} (a : A) : M A := fun w => (Val a, w, []).

Definition halt {A} (o : Outcome) : M A := fun w => (Halt o, w, []).

Definition bind {A B} (m : M A) (k : A -> M B) : M B :=
  fun w =>
    match m w with
    | (Val a, w1, t1) => let '(r, w2, t2) := k a w1 in (r, w2, t1 ++ t2)
    | (Halt o, w1, t1) => (Halt o, w1, t1)
    end.

(** A call that changes the environment and is recorded. *)
Definition call {A} (f : W -> A * W) (ev : A -> Event) : M A :=
  fun w => let (a, w1) := f w in (Val a, w1, [ev a]).

(** A call that may never come back. *)
Definition await {A} (f : W -> option (A * W)) (ev : A -> Event) : M A :=
  fun w =>
    match f w with
    | Some (a, w1) => (Val a, w1, [ev a])
    | None => (Halt Blocked, w, [])
    end.

(** A getter: reads the environment, leaves it alone. *)
Definition read {A} (f : W -> A) : M A := fun w => (Val (f w), w, []).

(** [if v, err := o; err != nil { k }]: continue with the value, or do [k]. *)
Definition orElse {A} (o : option A) (k : M A) : M A :=
  match o with
  | Some a => ret a
  | None => k
  end.

(** The trace of a run with [evs] put in front. *)
Definition prepend {A} (evs : list Event) (x : Res A * W * list Event)
  : Res A * W * list Event :=
  let '(r, w, t) := x in (r, w, evs ++ t).

End Monad.

Arguments ret {W A} a.
Arguments halt {W A} o.
Arguments bind {W A B} m k.
Arguments call {W A} f ev.
Arguments await {W A} f ev.
Arguments read {W A} f.
Arguments orElse {W A} o k.
Arguments prepend {W A} evs x.

Declare Scope deliver_scope.
Delimit Scope deliver_scope with deliver.
Notation "x <- m ;; k" := (bind m (fun x => k))
  (at level 61, m at next level, right associativity) : deliver_scope.
Notation "' pat <- m ;; k" := (bind m (fun x => match x with pat => k end))
  (at level 61, pat pattern, m at next level, right associativity) : deliver_scope.
Notation "m ;;; k" := (bind m (fun _ => k))
  (at level 61, right associativity) : deliver_scope.
Local Open Scope deliver_scope.

(** ** The environment of the handler

    [World] is the state of everything outside the handler: the stream,
    the registry of chains, the ledgers (which other goroutines append
    to) and the cursors opened on them.  A call that acts on it returns
    the next state; a getter reads it.  Between two calls of the same
    getter the handler always performs a call that returns a new state,
    so a getter constrains nothing about what a later call observes. *)
Class DeliverEnv : Type := {
  World : Type;
  (** [deliver.Support], the resources of one chain *)
  Support : Type;
  (** [ledger.Iterator], the cursor *)
  Cursor : Type;

  (** utils.UnmarshalPayload; [None] when [err != nil] *)
  UnmarshalPayload : bytes -> option cb.Payload;
  (** utils.UnmarshalChannelHeader *)
  UnmarshalChannelHeader : bytes -> option cb.ChannelHeader;
  (** proto.Unmarshal into a fresh [ab.SeekInfo] *)
  Unmarshal_SeekInfo : bytes -> option ab.SeekInfo;

  (** srv.Recv(); [None] when no message, error or end of stream ever comes *)
  srv_Recv : World -> option (RecvResult * World);
  (** srv.Send(m), with the error it returns *)
  srv_Send : ab.DeliverResponse -> World -> option error * World;

  (** ds.sm.GetChain(chainID); [None] when [ok] is false *)
  sm_GetChain : string -> World -> option Support;
  (** sigfilter.New(policies.ChannelReaders, chain.PolicyManager()).Apply(envelope) *)
  sf_Apply : Support -> cb.Envelope -> World -> filter.Action;
  (** chain.Reader().Iterator(start) *)
  Reader_Iterator : Support -> ab.SeekPosition -> World -> (Cursor * uint64) * World;
  (** chain.Reader().Height() *)
  Reader_Height : Support -> World -> uint64;

  (** <-cursor.ReadyChan(); [None] when the channel never becomes readable *)
  ReadyChan_recv : Cursor -> World -> option World;
  (** whether a receive from cursor.ReadyChan() can proceed right now *)
  ReadyChan_ready : Cursor -> World -> bool;
  (** cursor.Next(); the ledger hands out a block with a header *)
  Iterator_Next : Cursor -> World -> (cb.Block * cb.Status) * World
}.

(** ** The handler *)
Section Handler.
Context {E : DeliverEnv}.

Definition returnWith {A} (err : option error) : M World A :=
  halt (Returned err).

Definition sendStatusReply (status : cb.Status) : M World (option error) :=
  call (srv_Send (ab.DeliverResponse_Status status))
       (EvSend (ab.DeliverResponse_Status status)).

Definition sendBlockReply (block : cb.Block) : M World (option error) :=
  call (srv_Send (ab.DeliverResponse_Block block))
       (EvSend (ab.DeliverResponse_Block block)).

(** [return sendStatusReply(srv, status)] *)
Definition reject {A} (status : cb.Status) : M World A :=
  err <- sendStatusReply status ;; returnWith err.

(** Lines 127-139: the switch on [seekInfo.Stop.Type].  [stopNum] starts
    as the zero value; a type that matches no case leaves it there. *)
Definition Handle_stopNum (chain : Support) (stop : ab.SeekPosition)
           (number : uint64) : M World uint64 :=
  match ab.Type_ stop with
  | Some ab.SeekPosition_Oldest => ret number
  | Some ab.SeekPosition_Newest =>
      height <- read (Reader_Height chain) ;;
      ret (wrap64 (height - 1))
  | Some (ab.SeekPosition_Specified n) =>
      if n <? number then reject cb.Status_BAD_REQUEST else ret n
  | None => ret 0
  end.

(** Lines 142-150: wait for the cursor, or test it and give up. *)
Definition awaitReady (behavior : ab.SeekInfo_SeekBehavior) (cursor : Cursor)
  : M World unit :=
  match behavior with
  | ab.SeekInfo_BLOCK_UNTIL_READY =>
      await (fun w => option_map (pair tt) (ReadyChan_recv cursor w))
            (fun _ => EvReadyWait)
  | ab.SeekInfo_FAIL_IF_NOT_READY =>
      ready <- call (fun w => (ReadyChan_ready cursor w, w)) EvReadyPoll ;;
      if ready : bool then ret tt else reject cb.Status_NOT_FOUND
  end.

(** Lines 141-168: the inner [for] loop.  [Val tt] is the [break]. *)
Fixpoint cursorLoop (fuel : nat) (behavior : ab.SeekInfo_SeekBehavior)
         (cursor : Cursor) (stopNum : uint64) : M World unit :=
  match fuel with
  | O => halt OutOfFuel
  | S fuel' =>
      awaitReady behavior cursor ;;;
      '(block, status) <- call (Iterator_Next cursor)
                               (fun bs => EvNext (fst bs) (snd bs)) ;;
      match status with
      | cb.Status_SUCCESS =>
          err <- sendBlockReply block ;;
          match err with
          | Some e => returnWith (Some e)
          | None =>
              if stopNum =? cb.Number (cb.Header block)
              then ret tt
              else cursorLoop fuel' behavior cursor stopNum
          end
      | _ => reject status
      end
  end.

(** Lines 141-175: the loop, then the final SUCCESS. *)
Definition deliverRange (fuel : nat) (behavior : ab.SeekInfo_SeekBehavior)
           (cursor : Cursor) (stopNum : uint64) : M World unit :=
  cursorLoop fuel behavior cursor stopNum ;;;
  err <- sendStatusReply cb.Status_SUCCESS ;;
  match err with
  | Some e => returnWith (Some e)
  | None => ret tt
  end.

(** Lines 81-175: what one iteration of the outer loop does with the
    envelope it received.  [Val tt] falls through to the next iteration. *)
Definition serve (fuel : nat) (envelope : cb.Envelope) : M World unit :=
  payload <- orElse (UnmarshalPayload (cb.EPayload envelope))
                    (reject cb.Status_BAD_REQUEST) ;;
  header <- orElse (cb.PHeader payload) (reject cb.Status_BAD_REQUEST) ;;
  chdr <- orElse (UnmarshalChannelHeader (cb.ChannelHeader_ header))
                 (reject cb.Status_BAD_REQUEST) ;;
  found <- read (sm_GetChain (cb.ChannelId chdr)) ;;
  chain <- orElse found (reject cb.Status_NOT_FOUND) ;;
  result <- read (sf_Apply chain envelope) ;;
  match result with
  | filter.Forward =>
      seekInfo <- orElse (Unmarshal_SeekInfo (cb.PData payload))
                         (reject cb.Status_BAD_REQUEST) ;;
      match ab.Start seekInfo, ab.Stop seekInfo with
      | Some start, Some stop =>
          '(cursor, number) <- call (Reader_Iterator chain start)
                                    (fun cn => EvIterator (snd cn)) ;;
          stopNum <- Handle_stopNum chain stop number ;;
          deliverRange fuel (ab.Behavior seekInfo) cursor stopNum
      | _, _ => reject cb.Status_BAD_REQUEST
      end
  | _ => reject cb.Status_FORBIDDEN
  end.

(** Lines 66-177.  The function has no exit but its [return]s, so a run
    never ends in [Val]. *)
Fixpoint Handle (fuel : nat) : M World Empty_set :=
  match fuel with
  | O => halt OutOfFuel
  | S fuel' =>
      r <- await srv_Recv EvRecv ;;
      match r with
      | RecvEOF => returnWith None
      | RecvError err => returnWith (Some err)
      | RecvEnvelope envelope => serve fuel' envelope ;;; Handle fuel'
      end
  end.

End Handler.

(** ** A concrete environment

    One chain, ["mychannel"], whose ledger retains the blocks
    [oldest .. height-1]; a client that has queued its messages in
    [inbox]; optionally a writer that appends the next block whenever a
    reader waits for it.  The wire format is a toy one.  It serves to run
    the handler on examples. *)
Module Demo.

Record world : Type := {
  inbox : list RecvResult;   (* what the client sends, in order *)
  linkUp : bool;             (* whether srv.Send succeeds *)
  oldest : uint64;           (* lowest retained block number *)
  height : uint64;           (* one past the newest block number *)
  writer : bool;             (* whether blocks keep being appended *)
  pos : uint64               (* where the open cursor stands *)
}.

Definition mkBlock (n : uint64) : cb.Block :=
  {| cb.Header := {| cb.Number := n; cb.PreviousHash := []; cb.DataHash := [] |};
     cb.Data := [] |}.

Definition num (b : Byte.byte) : uint64 := Z.of_N (Byte.to_N b).

(** First byte: 0 for a payload without header, otherwise the channel
    header; the rest is the data. *)
Definition unmarshalPayload (bs : bytes) : option cb.Payload :=
  match bs with
  | [] => None
  | Byte.x00 :: d => Some {| cb.PHeader := None; cb.PData := d |}
  | h :: d =>
      Some {| cb.PHeader := Some {| cb.ChannelHeader_ := [h];
                                    cb.SignatureHeader := [] |};
              cb.PData := d |}
  end.

Definition unmarshalChannelHeader (bs : bytes) : option cb.ChannelHeader :=
  match bs with
  | [Byte.x01] => Some {| cb.ChannelId := "mychannel" |}
  | [Byte.x02] => Some {| cb.ChannelId := "nochannel" |}
  | _ => None
  end.

(** Tag 0: absent; 1: Oldest; 2: Newest; 3: Specified; 4: present with
    the oneof unset. *)
Definition decodePosition (tag n : Byte.byte) : option (option ab.SeekPosition) :=
  match tag with
  | Byte.x00 => Some None
  | Byte.x01 => Some (Some {| ab.Type_ := Some ab.SeekPosition_Oldest |})
  | Byte.x02 => Some (Some {| ab.Type_ := Some ab.SeekPosition_Newest |})
  | Byte.x03 => Some (Some {| ab.Type_ := Some (ab.SeekPosition_Specified (num n)) |})
  | Byte.x04 => Some (Some {| ab.Type_ := None |})
  | _ => None
  end.

Definition unmarshalSeekInfo (bs : bytes) : option ab.SeekInfo :=
  match bs with
  | [b; t1; n1; t2; n2] =>
      match decodePosition t1 n1, decodePosition t2 n2 with
      | Some start, Some stop =>
          match b with
          | Byte.x00 => Some {| ab.Start := start; ab.Stop := stop;
                                ab.Behavior := ab.SeekInfo_BLOCK_UNTIL_READY |}
          | Byte.x01 => Some {| ab.Start := start; ab.Stop := stop;
                                ab.Behavior := ab.SeekInfo_FAIL_IF_NOT_READY |}
          | _ => None
          end
      | _, _ => None
      end
  | _ => None
  end.

Definition recv (w : world) : option (RecvResult * world) :=
  match inbox w with
  | [] => None
  | r :: rest =>
      Some (r, {| inbox := rest; linkUp := linkUp w; oldest := oldest w;
                  height := height w; writer := writer w; pos := pos w |})
  end.

Definition send (m : ab.DeliverResponse) (w : world) : option error * world :=
  if linkUp w then (None, w) else (Some "transport is closing"%string, w).

Definition getChain (id : string) (w : world) : option unit :=
  if String.eqb id "mychannel" then Some tt else None.

Definition apply (chain : unit) (envelope : cb.Envelope) (w : world) : filter.Action :=
  match cb.Signature envelope with
  | [Byte.x01] => filter.Forward
  | _ => filter.Reject
  end.

Definition moveTo (n : uint64) (w : world) : world :=
  {| inbox := inbox w; linkUp := linkUp w; oldest := oldest w;
     height := height w; writer := writer w; pos := n |}.

(** Modelled from the spec: [ledger.Reader.Iterator] lives in
    orderer/ledger, outside the sources at hand.  The specification has
    Oldest resolve to the lowest retained block number, Newest to
    height - 1, and Specified to the number it carries. *)
Definition iterator (chain : unit) (start : ab.SeekPosition) (w : world)
  : (unit * uint64) * world :=
  let number :=
    match ab.Type_ start with
    | Some ab.SeekPosition_Oldest => oldest w
    | Some ab.SeekPosition_Newest => wrap64 (height w - 1)
    | Some (ab.SeekPosition_Specified n) => n
    | None => 0
    end in
  ((tt, number), moveTo number w).

Definition ready (c : unit) (w : world) : bool := pos w <? height w.

Definition waitReady (c : unit) (w : world) : option world :=
  if pos w <? height w then Some w
  else if writer w
       then Some {| inbox := inbox w; linkUp := linkUp w; oldest := oldest w;
                    height := pos w + 1; writer := true; pos := pos w |}
       else None.

Definition next (c : unit) (w : world) : (cb.Block * cb.Status) * world :=
  if (oldest w <=? pos w) && (pos w <? height w)
  then ((mkBlock (pos w), cb.Status_SUCCESS), moveTo (pos w + 1) w)
  else ((mkBlock 0, cb.Status_NOT_FOUND), w).

#[export] Instance env : DeliverEnv := {|
  World := world;
  Support := unit;
  Cursor := unit;
  UnmarshalPayload := unmarshalPayload;
  UnmarshalChannelHeader := unmarshalChannelHeader;
  Unmarshal_SeekInfo := unmarshalSeekInfo;
  srv_Recv := recv;
  srv_Send := send;
  sm_GetChain := getChain;
  sf_Apply := apply;
  Reader_Iterator := iterator;
  Reader_Height := fun _ w => height w;
  ReadyChan_recv := waitReady;
  ReadyChan_ready := ready;
  Iterator_Next := next
|}.

(** A signed seek request for ["mychannel"]. *)
Definition seek (behavior t1 n1 t2 n2 : Byte.byte) : cb.Envelope :=
  {| cb.EPayload := [Byte.x01; behavior; t1; n1; t2; n2];
     cb.Signature := [Byte.x01] |}.

(** A ledger with blocks 0..9 and nobody appending. *)
Definition idle (msgs : list cb.Envelope) : world :=
  {| inbox := map RecvEnvelope msgs; linkUp := true; oldest := 0;
     height := 10; writer := false; pos := 0 |}.

(** The same ledger seen by an open cursor standing at [n]. *)
Definition idleAt (n : uint64) (msgs : list cb.Envelope) : world :=
  moveTo n (idle msgs).

(** A ledger without any block. *)
Definition empty (msgs : list cb.Envelope) : world :=
  {| inbox := map RecvEnvelope msgs; linkUp := true; oldest := 0;
     height := 0; writer := false; pos := 0 |}.

Definition oldestPos : ab.SeekPosition := {| ab.Type_ := Some ab.SeekPosition_Oldest |}.
Definition newestPos : ab.SeekPosition := {| ab.Type_ := Some ab.SeekPosition_Newest |}.
Definition specified (n : uint64) : ab.SeekPosition :=
  {| ab.Type_ := Some (ab.SeekPosition_Specified n) |}.
Definition unsetPos : ab.SeekPosition := {| ab.Type_ := None |}.

(** The SeekInfo of a request that waits for its blocks. *)
Definition waiting (start stop : ab.SeekPosition) : ab.SeekInfo :=
  {| ab.Start := Some start; ab.Stop := Some stop;
     ab.Behavior := ab.SeekInfo_BLOCK_UNTIL_READY |}.

(** Requests for ["mychannel"], by start and stop position. *)
Definition failFrom10To12 : cb.Envelope :=
  seek Byte.x01 Byte.x03 Byte.x0a Byte.x03 Byte.x0c.
Definition failOldestToOldest : cb.Envelope :=
  seek Byte.x01 Byte.x01 Byte.x00 Byte.x01 Byte.x00.
Definition waitFrom5ToOldest : cb.Envelope :=
  seek Byte.x00 Byte.x03 Byte.x05 Byte.x01 Byte.x00.
Definition waitFrom5ToNewest : cb.Envelope :=
  seek Byte.x00 Byte.x03 Byte.x05 Byte.x02 Byte.x00.
Definition waitFrom5To200 : cb.Envelope :=
  seek Byte.x00 Byte.x03 Byte.x05 Byte.x03 Byte.xc8.
Definition waitFrom5To3 : cb.Envelope :=
  seek Byte.x00 Byte.x03 Byte.x05 Byte.x03 Byte.x03.
Definition waitFrom5ToUnset : cb.Envelope :=
  seek Byte.x00 Byte.x03 Byte.x05 Byte.x04 Byte.x00.
Definition waitFrom7To8 : cb.Envelope :=
  seek Byte.x00 Byte.x03 Byte.x07 Byte.x03 Byte.x08.
Definition waitOldestToNewest : cb.Envelope :=
  seek Byte.x00 Byte.x01 Byte.x00 Byte.x02 Byte.x00.

(** The same request without a valid signature. *)
Definition unsignedRequest : cb.Envelope :=
  {| cb.EPayload := cb.EPayload waitFrom5ToOldest; cb.Signature := [] |}.

(** Messages that do not decode. *)
Definition noPayload : cb.Envelope :=
  {| cb.EPayload := []; cb.Signature := [Byte.x01] |}.
Definition noSeekInfo : cb.Envelope :=
  {| cb.EPayload := [Byte.x01; Byte.xff]; cb.Signature := [Byte.x01] |}.
Definition noStop : cb.Envelope :=
  seek Byte.x00 Byte.x01 Byte.x00 Byte.x00 Byte.x00.

(** An unparsable SeekInfo sent to a channel that does not exist, and one
    sent without a valid signature. *)
Definition noSeekInfoNoChannel : cb.Envelope :=
  {| cb.EPayload := [Byte.x02; Byte.xff]; cb.Signature := [Byte.x01] |}.
Definition noSeekInfoUnsigned : cb.Envelope :=
  {| cb.EPayload := [Byte.x01; Byte.xff]; cb.Signature := [] |}.

(** What the loop leaves in the trace when it delivers blocks 5 and 6. *)
Definition deliveryTrace56 : list Event :=
  [EvReadyWait; EvNext (mkBlock 5) cb.Status_SUCCESS;
   EvSend (ab.DeliverResponse_Block (mkBlock 5)) None;
   EvReadyWait; EvNext (mkBlock 6) cb.Status_SUCCESS;
   EvSend (ab.DeliverResponse_Block (mkBlock 6)) None].

(** What serving [waitFrom7To8] on the idle ledger leaves in the trace
    after the request is read. *)
Definition servedFrom7To8 : list Event :=
  [EvIterator 7;
   EvReadyWait; EvNext (mkBlock 7) cb.Status_SUCCESS;
   EvSend (ab.DeliverResponse_Block (mkBlock 7)) None;
   EvReadyWait; EvNext (mkBlock 8) cb.Status_SUCCESS;
   EvSend (ab.DeliverResponse_Block (mkBlock 8)) None;
   EvSend (ab.DeliverResponse_Status cb.Status_SUCCESS) None].

End Demo.

(** ** Reading traces *)

(** The responses handed to [srv.Send], in order. *)
Fixpoint responses (t : list Event) : list ab.DeliverResponse :=
  match t with
  | [] => []
  | EvSend m _ :: t' => m :: responses t'
  | _ :: t' => responses t'
  end.

(** The blocks that [cursor.Next] returned with SUCCESS, in order. *)
Fixpoint pulled (t : list Event) : list cb.Block :=
  match t with
  | [] => []
  | EvNext b cb.Status_SUCCESS :: t' => b :: pulled t'
  | _ :: t' => pulled t'
  end.

Definition isRecv (e : Event) : bool :=
  match e with
  | EvRecv _ => true
  | _ => false
  end.

(** No message is read from the stream within [t]. *)
Definition noRecv (t : list Event) : Prop := forallb (fun e => negb (isRecv e)) t = true.

Definition blockNumber (b : cb.Block) : uint64 := cb.Number (cb.Header b).

(** [consecutive n bs]: the blocks are numbered n, n+1, n+2, ... *)
Fixpoint consecutive (n : uint64) (bs : list cb.Block) : Prop :=
  match bs with
  | [] => True
  | b :: bs' => blockNumber b = n /\ consecutive (n + 1) bs'
  end.

(** ** Requests and deliveries, seen from the environment *)
Section Conditions.
Context {E : DeliverEnv}.

(** The envelope decodes down to its channel header and names a chain
    that the registry knows. *)
Definition Routed (w : World) (envelope : cb.Envelope)
           (payload : cb.Payload) (chain : Support) : Prop :=
  exists header chdr,
    UnmarshalPayload (cb.EPayload envelope) = Some payload /\
    cb.PHeader payload = Some header /\
    UnmarshalChannelHeader (cb.ChannelHeader_ header) = Some chdr /\
    sm_GetChain (cb.ChannelId chdr) w = Some chain.

(** A well-formed, authorized seek request. *)
Definition Accepted (w : World) (envelope : cb.Envelope) (chain : Support)
           (seekInfo : ab.SeekInfo) (start stop : ab.SeekPosition) : Prop :=
  exists payload,
    Routed w envelope payload chain /\
    sf_Apply chain envelope w = filter.Forward /\
    Unmarshal_SeekInfo (cb.PData payload) = Some seekInfo /\
    ab.Start seekInfo = Some start /\
    ab.Stop seekInfo = Some stop.

(** The ways a message is malformed, each at the point where the handler
    finds out. *)
Inductive Malformed (w : World) (envelope : cb.Envelope) : Prop :=
| BadPayload :
    UnmarshalPayload (cb.EPayload envelope) = None ->
    Malformed w envelope
| NoHeader payload :
    UnmarshalPayload (cb.EPayload envelope) = Some payload ->
    cb.PHeader payload = None ->
    Malformed w envelope
| BadChannelHeader payload header :
    UnmarshalPayload (cb.EPayload envelope) = Some payload ->
    cb.PHeader payload = Some header ->
    UnmarshalChannelHeader (cb.ChannelHeader_ header) = None ->
    Malformed w envelope
| BadSeekInfo payload chain :
    Routed w envelope payload chain ->
    sf_Apply chain envelope w = filter.Forward ->
    Unmarshal_SeekInfo (cb.PData payload) = None ->
    Malformed w envelope
| NoStartOrStop payload chain seekInfo :
    Routed w envelope payload chain ->
    sf_Apply chain envelope w = filter.Forward ->
    Unmarshal_SeekInfo (cb.PData payload) = Some seekInfo ->
    ab.Start seekInfo = None \/ ab.Stop seekInfo = None ->
    Malformed w envelope.

(** The readiness test of one loop iteration lets the handler through. *)
Definition Ready (behavior : ab.SeekInfo_SeekBehavior) (cursor : Cursor)
           (w w' : World) : Prop :=
  match behavior with
  | ab.SeekInfo_BLOCK_UNTIL_READY => ReadyChan_recv cursor w = Some w'
  | ab.SeekInfo_FAIL_IF_NOT_READY => ReadyChan_ready cursor w = true /\ w' = w
  end.

Definition readyEvent (behavior : ab.SeekInfo_SeekBehavior) : Event :=
  match behavior with
  | ab.SeekInfo_BLOCK_UNTIL_READY => EvReadyWait
  | ab.SeekInfo_FAIL_IF_NOT_READY => EvReadyPoll true
  end.

(** One trouble-free iteration: the cursor is ready, yields [block] with
    SUCCESS, and the block goes out. *)
Definition Delivers1 (behavior : ab.SeekInfo_SeekBehavior) (cursor : Cursor)
           (w : World) (block : cb.Block) (w' : World) : Prop :=
  exists w1 w2,
    Ready behavior cursor w w1 /\
    Iterator_Next cursor w1 = ((block, cb.Status_SUCCESS), w2) /\
    srv_Send (ab.DeliverResponse_Block block) w2 = (None, w').

(** Several of them in a row. *)
Inductive Delivers (behavior : ab.SeekInfo_SeekBehavior) (cursor : Cursor)
  : World -> list cb.Block -> World -> Prop :=
| Delivers_nil w : Delivers behavior cursor w [] w
| Delivers_cons w b w1 bs w2 :
    Delivers1 behavior cursor w b w1 ->
    Delivers behavior cursor w1 bs w2 ->
    Delivers behavior cursor w (b :: bs) w2.

(** The trace such iterations leave. *)
Definition deliveryTrace (behavior : ab.SeekInfo_SeekBehavior)
           (bs : list cb.Block) : list Event :=
  flat_map (fun b => [readyEvent behavior;
                      EvNext b cb.Status_SUCCESS;
                      EvSend (ab.DeliverResponse_Block b) None]) bs.

End Conditions.

(** ** The traces the handler can leave

    The shape of every trace of the inner loop, of one request and of a
    whole session, each with the way the run ends.  The lemmas
    [cursorLoop_traces], [serve_traces] and [Handle_traces] below show that
    the handler stays within them. *)

(** Traces of the inner loop for a given behavior and stop number. *)
Inductive LoopTrace (behavior : ab.SeekInfo_SeekBehavior) (stopNum : uint64)
  : Res unit -> list Event -> Prop :=
| LT_fuel :
    LoopTrace behavior stopNum (Halt OutOfFuel) []
| LT_blocked :
    behavior = ab.SeekInfo_BLOCK_UNTIL_READY ->
    LoopTrace behavior stopNum (Halt Blocked) []
| LT_not_ready err :
    behavior = ab.SeekInfo_FAIL_IF_NOT_READY ->
    LoopTrace behavior stopNum (Halt (Returned err))
              [EvReadyPoll false;
               EvSend (ab.DeliverResponse_Status cb.Status_NOT_FOUND) err]
| LT_fault b s err :
    s <> cb.Status_SUCCESS ->
    LoopTrace behavior stopNum (Halt (Returned err))
              [readyEvent behavior; EvNext b s;
               EvSend (ab.DeliverResponse_Status s) err]
| LT_send_failed b e :
    LoopTrace behavior stopNum (Halt (Returned (Some e)))
              [readyEvent behavior; EvNext b cb.Status_SUCCESS;
               EvSend (ab.DeliverResponse_Block b) (Some e)]
| LT_last b :
    blockNumber b = stopNum ->
    LoopTrace behavior stopNum (Val tt) (deliveryTrace behavior [b])
| LT_more b r t :
    blockNumber b <> stopNum ->
    LoopTrace behavior stopNum r t ->
    LoopTrace behavior stopNum r (deliveryTrace behavior [b] ++ t).

(** Traces of what the handler does with one envelope. *)
Inductive RequestTrace : Res unit -> list Event -> Prop :=
| RT_turned_down status err :
    RequestTrace (Halt (Returned err))
                 [EvSend (ab.DeliverResponse_Status status) err]
| RT_bad_range number err :
    RequestTrace (Halt (Returned err))
                 [EvIterator number;
                  EvSend (ab.DeliverResponse_Status cb.Status_BAD_REQUEST) err]
| RT_loop_ends_run behavior stopNum number o t :
    LoopTrace behavior stopNum (Halt o) t ->
    RequestTrace (Halt o) (EvIterator number :: t)
| RT_success_not_sent behavior stopNum number t e :
    LoopTrace behavior stopNum (Val tt) t ->
    RequestTrace (Halt (Returned (Some e)))
                 (EvIterator number :: t ++
                  [EvSend (ab.DeliverResponse_Status cb.Status_SUCCESS) (Some e)])
| RT_success behavior stopNum number t :
    LoopTrace behavior stopNum (Val tt) t ->
    RequestTrace (Val tt)
                 (EvIterator number :: t ++
                  [EvSend (ab.DeliverResponse_Status cb.Status_SUCCESS) None]).

(** Traces of a session. *)
Inductive SessionTrace : Res Empty_set -> list Event -> Prop :=
| ST_fuel :
    SessionTrace (Halt OutOfFuel) []
| ST_blocked :
    SessionTrace (Halt Blocked) []
| ST_eof :
    SessionTrace (Halt (Returned None)) [EvRecv RecvEOF]
| ST_error e :
    SessionTrace (Halt (Returned (Some e))) [EvRecv (RecvError e)]
| ST_last envelope o t :
    RequestTrace (Halt o) t ->
    SessionTrace (Halt o) (EvRecv (RecvEnvelope envelope) :: t)
| ST_next envelope t r t' :
    RequestTrace (Val tt) t ->
    SessionTrace r t' ->
    SessionTrace r (EvRecv (RecvEnvelope envelope) :: t ++ t').

(** * Properties *)
Section Properties.
Context {E : DeliverEnv}.

Local Abbreviation StatusReply := ab.DeliverResponse_Status.
Local Abbreviation BlockReply := ab.DeliverResponse_Block.

(** *** Unfolding the handler *)

Lemma bind_val {A B} (m : M World A) (k : A -> M World B) w a w1 t1 :
  m w = (Val a, w1, t1) ->
  bind m k w = prepend t1 (k a w1).
Proof.
  intros Hm. unfold bind, prepend. rewrite Hm. reflexivity.
Qed.

Lemma bind_halt {A B} (m : M World A) (k : A -> M World B) w o w1 t1 :
  m w = (Halt o, w1, t1) ->
  bind m k w = (Halt o, w1, t1).
Proof.
  intros Hm. unfold bind. rewrite Hm. reflexivity.
Qed.

Lemma prepend_nil {A} (x : Res A * World * list Event) : prepend [] x = x.
Proof. destruct x as [[r w] t]. reflexivity. Qed.

Lemma prepend_app {A} t1 t2 (x : Res A * World * list Event) :
  prepend t1 (prepend t2 x) = prepend (t1 ++ t2) x.
Proof. destruct x as [[r w] t]. simpl. now rewrite app_assoc. Qed.

Lemma reject_run {A} status w err w' :
  srv_Send (StatusReply status) w = (err, w') ->
  @reject E A status w = (Halt (Returned err), w', [EvSend (StatusReply status) err]).
Proof.
  intros Hs. unfold reject, sendStatusReply, bind, call, returnWith, halt.
  rewrite Hs. reflexivity.
Qed.

Lemma bind_halt_reject {A B} status (k : A -> M World B) w :
  bind (reject status) k w = reject status w.
Proof.
  unfold reject, sendStatusReply, bind, call, returnWith, halt.
  destruct (srv_Send (StatusReply status) w) as [err w1]. reflexivity.
Qed.

Lemma Handle_envelope fuel w0 envelope w :
  srv_Recv w0 = Some (RecvEnvelope envelope, w) ->
  Handle (S fuel) w0 =
  prepend [EvRecv (RecvEnvelope envelope)] ((serve fuel envelope ;;; Handle fuel) w).
Proof.
  intros Hr. cbn [Handle].
  erewrite bind_val by (unfold await; rewrite Hr; reflexivity).
  reflexivity.
Qed.

Lemma bind_ret_l {A B} (a : A) (k : A -> M World B) w :
  bind (ret a) k w = k a w.
Proof.
  unfold bind, ret. destruct (k a w) as [[r w2] t2]. reflexivity.
Qed.

Lemma bind_read {A B} (f : World -> A) (k : A -> M World B) w :
  bind (read f) k w = k (f w) w.
Proof.
  unfold bind, read. destruct (k (f w) w) as [[r w2] t2]. reflexivity.
Qed.

Lemma serve_routed fuel w envelope payload chain :
  Routed w envelope payload chain ->
  serve fuel envelope w =
  match sf_Apply chain envelope w with
  | filter.Forward =>
      (seekInfo <- orElse (Unmarshal_SeekInfo (cb.PData payload))
                          (reject cb.Status_BAD_REQUEST) ;;
       match ab.Start seekInfo, ab.Stop seekInfo with
       | Some start, Some stop =>
           '(cursor, number) <- call (Reader_Iterator chain start)
                                     (fun cn => EvIterator (snd cn)) ;;
           stopNum <- Handle_stopNum chain stop number ;;
           deliverRange fuel (ab.Behavior seekInfo) cursor stopNum
       | _, _ => reject cb.Status_BAD_REQUEST
       end) w
  | _ => reject cb.Status_FORBIDDEN w
  end.
Proof.
  intros (header & chdr & Hp & Hh & Hc & Hg).
  unfold serve. rewrite Hp. cbn [orElse]. rewrite bind_ret_l.
  rewrite Hh. cbn [orElse]. rewrite bind_ret_l.
  rewrite Hc. cbn [orElse]. rewrite bind_ret_l.
  rewrite bind_read, Hg. cbn [orElse]. rewrite bind_ret_l.
  rewrite bind_read.
  destruct (sf_Apply chain envelope w); reflexivity.
Qed.

Lemma serve_accepted fuel w envelope chain seekInfo start stop cursor number w1 :
  Accepted w envelope chain seekInfo start stop ->
  Reader_Iterator chain start w = ((cursor, number), w1) ->
  serve fuel envelope w =
  prepend [EvIterator number]
          ((stopNum <- Handle_stopNum chain stop number ;;
            deliverRange fuel (ab.Behavior seekInfo) cursor stopNum) w1).
Proof.
  intros (payload & Hr & Hf & Hu & Hs & Ht) Hi.
  rewrite (serve_routed fuel Hr), Hf, Hu. cbn [orElse].
  erewrite bind_val by reflexivity. rewrite prepend_nil, Hs, Ht.
  erewrite bind_val by (unfold call; rewrite Hi; reflexivity).
  reflexivity.
Qed.

(** A request that [serve] turns down ends the session with it. *)
Lemma Handle_rejects fuel w0 envelope w o w' t :
  srv_Recv w0 = Some (RecvEnvelope envelope, w) ->
  serve fuel envelope w = (Halt o, w', t) ->
  Handle (S fuel) w0 = (Halt o, w', EvRecv (RecvEnvelope envelope) :: t).
Proof.
  intros Hr Hs. rewrite (Handle_envelope fuel w0 Hr).
  erewrite bind_halt by exact Hs. reflexivity.
Qed.

(** *** Authorization *)

(** C6.  A request that decodes and names a known chain, but for which the
    signature filter answers anything other than Forward, gets one
    FORBIDDEN status; Handle returns with the result of that send, and no
    block response is sent: the trace of the iteration is the receive
    followed by that single send. *)
Theorem unauthorized_request_forbidden :
  forall fuel w0 w w' envelope payload chain err,
    srv_Recv w0 = Some (RecvEnvelope envelope, w) ->
    Routed w envelope payload chain ->
    sf_Apply chain envelope w <> filter.Forward ->
    srv_Send (StatusReply cb.Status_FORBIDDEN) w = (err, w') ->
    Handle (S fuel) w0 =
    (Halt (Returned err), w',
     [EvRecv (RecvEnvelope envelope); EvSend (StatusReply cb.Status_FORBIDDEN) err]).
Proof.
  intros fuel w0 w w' envelope payload chain err Hrecv Hrouted Hdeny Hsend.
  apply Handle_rejects with (w := w); [exact Hrecv|].
  rewrite (serve_routed fuel Hrouted).
  destruct (sf_Apply chain envelope w); try contradiction;
    apply reject_run; exact Hsend.
Qed.

(** *** Malformed messages *)

(** C2, as the code has it.  A message whose payload or header fails to
    decode gets one BAD_REQUEST status and ends the session, and so does a
    message with an unparsable or incomplete SeekInfo once its chain was
    found and its signature let through; nothing else is sent. *)
Theorem malformed_message_bad_request :
  forall fuel w0 w w' envelope err,
    srv_Recv w0 = Some (RecvEnvelope envelope, w) ->
    Malformed w envelope ->
    srv_Send (StatusReply cb.Status_BAD_REQUEST) w = (err, w') ->
    Handle (S fuel) w0 =
    (Halt (Returned err), w',
     [EvRecv (RecvEnvelope envelope); EvSend (StatusReply cb.Status_BAD_REQUEST) err]).
Proof.
  intros fuel w0 w w' envelope err Hrecv Hbad Hsend.
  apply Handle_rejects with (w := w); [exact Hrecv|].
  destruct Hbad as [Hp | payload Hp Hh | payload header Hp Hh Hc
                    | payload chain Hr Hf Hu | payload chain seekInfo Hr Hf Hu Hmiss].
  - unfold serve. rewrite Hp. cbn [orElse].
    erewrite bind_halt by (apply reject_run; exact Hsend). reflexivity.
  - unfold serve. rewrite Hp. cbn [orElse]. rewrite bind_ret_l, Hh. cbn [orElse].
    erewrite bind_halt by (apply reject_run; exact Hsend). reflexivity.
  - unfold serve. rewrite Hp. cbn [orElse]. rewrite bind_ret_l, Hh. cbn [orElse].
    rewrite bind_ret_l, Hc. cbn [orElse].
    erewrite bind_halt by (apply reject_run; exact Hsend). reflexivity.
  - rewrite (serve_routed fuel Hr), Hf, Hu. cbn [orElse].
    erewrite bind_halt by (apply reject_run; exact Hsend). reflexivity.
  - rewrite (serve_routed fuel Hr), Hf, Hu. cbn [orElse]. rewrite bind_ret_l.
    destruct Hmiss as [Hm | Hm]; rewrite Hm.
    + apply reject_run; exact Hsend.
    + destruct (ab.Start seekInfo); apply reject_run; exact Hsend.
Qed.

(** *** Resolving the range *)

Lemma stopNum_run chain stop number w stopNum fuel behavior cursor :
  Handle_stopNum chain stop number w = (Val stopNum, w, []) ->
  (s <- Handle_stopNum chain stop number ;;
   deliverRange fuel behavior cursor s) w =
  deliverRange fuel behavior cursor stopNum w.
Proof.
  intros Hs. erewrite bind_val by exact Hs. apply prepend_nil.
Qed.

(** C3, as the code has it.  For an accepted request whose iterator,
    opened at the start position, reports [number]: a stop position Oldest
    makes the range end at [number] itself; Newest makes it end at
    height - 1, computed in uint64; Specified n makes it end at n for every
    n that is not below [number], however n compares with the height. *)
Theorem stop_number_by_case :
  forall fuel w w1 envelope chain seekInfo start stop cursor number,
    Accepted w envelope chain seekInfo start stop ->
    Reader_Iterator chain start w = ((cursor, number), w1) ->
    (ab.Type_ stop = Some ab.SeekPosition_Oldest ->
     Handle_stopNum chain stop number w1 = (Val number, w1, []) /\
     serve fuel envelope w =
     prepend [EvIterator number]
             (deliverRange fuel (ab.Behavior seekInfo) cursor number w1)) /\
    (ab.Type_ stop = Some ab.SeekPosition_Newest ->
     Handle_stopNum chain stop number w1 =
     (Val (wrap64 (Reader_Height chain w1 - 1)), w1, []) /\
     serve fuel envelope w =
     prepend [EvIterator number]
             (deliverRange fuel (ab.Behavior seekInfo) cursor
                           (wrap64 (Reader_Height chain w1 - 1)) w1)) /\
    (forall n,
        ab.Type_ stop = Some (ab.SeekPosition_Specified n) ->
        number <= n ->
        Handle_stopNum chain stop number w1 = (Val n, w1, []) /\
        serve fuel envelope w =
        prepend [EvIterator number]
                (deliverRange fuel (ab.Behavior seekInfo) cursor n w1)).
Proof.
  intros fuel w w1 envelope chain seekInfo start stop cursor number Hacc Hit.
  rewrite (serve_accepted fuel Hacc Hit).
  assert (Hgo : forall s, Handle_stopNum chain stop number w1 = (Val s, w1, []) ->
                Handle_stopNum chain stop number w1 = (Val s, w1, []) /\
                prepend [EvIterator number]
                  ((stopNum <- Handle_stopNum chain stop number ;;
                    deliverRange fuel (ab.Behavior seekInfo) cursor stopNum) w1) =
                prepend [EvIterator number]
                  (deliverRange fuel (ab.Behavior seekInfo) cursor s w1)).
  { intros s Hs. split; [exact Hs|]. erewrite stopNum_run by exact Hs. reflexivity. }
  split; [|split].
  - intros Ht. apply Hgo. unfold Handle_stopNum. rewrite Ht. reflexivity.
  - intros Ht. apply Hgo. unfold Handle_stopNum. rewrite Ht.
    now rewrite bind_read.
  - intros n Ht Hle. apply Hgo. unfold Handle_stopNum. rewrite Ht.
    destruct (Z.ltb_spec n number); [lia | reflexivity].
Qed.

(** C4.  An accepted request whose stop position is Specified n, with n
    below the number its iterator reports, gets BAD_REQUEST right after
    the iterator is opened: the cursor is never asked for a block, no
    block is sent, and Handle returns with the result of the send. *)
Theorem stop_below_start_bad_request :
  forall fuel w0 w w1 w2 envelope chain seekInfo start stop cursor number n err,
    srv_Recv w0 = Some (RecvEnvelope envelope, w) ->
    Accepted w envelope chain seekInfo start stop ->
    Reader_Iterator chain start w = ((cursor, number), w1) ->
    ab.Type_ stop = Some (ab.SeekPosition_Specified n) ->
    n < number ->
    srv_Send (StatusReply cb.Status_BAD_REQUEST) w1 = (err, w2) ->
    Handle (S fuel) w0 =
    (Halt (Returned err), w2,
     [EvRecv (RecvEnvelope envelope);
      EvIterator number;
      EvSend (StatusReply cb.Status_BAD_REQUEST) err]).
Proof.
  intros fuel w0 w w1 w2 envelope chain seekInfo start stop cursor number n err
         Hrecv Hacc Hit Ht Hlt Hsend.
  apply Handle_rejects with (w := w); [exact Hrecv|].
  rewrite (serve_accepted fuel Hacc Hit).
  erewrite bind_halt.
  - reflexivity.
  - unfold Handle_stopNum. rewrite Ht.
    destruct (Z.ltb_spec n number); [|lia].
    apply reject_run. exact Hsend.
Qed.

(** C8.  An accepted request whose stop position is present but has its
    oneof unset is not turned down: no case of the switch applies, the
    stop number stays 0, and the session goes on with the cursor loop for
    stop number 0. *)
Theorem unset_stop_type_runs_to_zero :
  forall fuel w0 w w1 envelope chain seekInfo start stop cursor number,
    srv_Recv w0 = Some (RecvEnvelope envelope, w) ->
    Accepted w envelope chain seekInfo start stop ->
    Reader_Iterator chain start w = ((cursor, number), w1) ->
    ab.Type_ stop = None ->
    Handle_stopNum chain stop number w1 = (Val 0, w1, []) /\
    Handle (S fuel) w0 =
    prepend [EvRecv (RecvEnvelope envelope); EvIterator number]
            ((deliverRange fuel (ab.Behavior seekInfo) cursor 0 ;;; Handle fuel) w1).
Proof.
  intros fuel w0 w w1 envelope chain seekInfo start stop cursor number
         Hrecv Hacc Hit Ht.
  assert (Hs : Handle_stopNum chain stop number w1 = (Val 0, w1, [])).
  { unfold Handle_stopNum. now rewrite Ht. }
  split; [exact Hs|].
  rewrite (Handle_envelope fuel w0 Hrecv). unfold bind at 1.
  rewrite (serve_accepted fuel Hacc Hit). erewrite stopNum_run by exact Hs.
  unfold bind.
  destruct (deliverRange fuel (ab.Behavior seekInfo) cursor 0 w1) as [[[[]|o] w2] t2];
    cbn; [destruct (Handle fuel w2) as [[r w3] t3]|]; reflexivity.
Qed.

(** On a ledger with at least one block, height - 1 does not wrap. *)
Lemma wrap64_pred height :
  is_uint64 height -> 0 < height -> wrap64 (height - 1) = height - 1.
Proof.
  unfold is_uint64, wrap64. intros Hr Hpos. apply Z.mod_small. lia.
Qed.

(** C9.  With stop position Newest on a ledger whose Height() is 0, the
    stop number is 0 - 1 in uint64, that is 2^64 - 1; nothing is reported
    as an error and the session goes on with the cursor loop for that
    stop number. *)
Theorem newest_on_empty_ledger_wraps :
  forall fuel w0 w w1 envelope chain seekInfo start stop cursor number,
    srv_Recv w0 = Some (RecvEnvelope envelope, w) ->
    Accepted w envelope chain seekInfo start stop ->
    Reader_Iterator chain start w = ((cursor, number), w1) ->
    ab.Type_ stop = Some ab.SeekPosition_Newest ->
    Reader_Height chain w1 = 0 ->
    Handle_stopNum chain stop number w1 = (Val 18446744073709551615, w1, []) /\
    Handle (S fuel) w0 =
    prepend [EvRecv (RecvEnvelope envelope); EvIterator number]
            ((deliverRange fuel (ab.Behavior seekInfo) cursor (2 ^ 64 - 1) ;;;
              Handle fuel) w1).
Proof.
  intros fuel w0 w w1 envelope chain seekInfo start stop cursor number
         Hrecv Hacc Hit Ht Hh.
  assert (Hs : Handle_stopNum chain stop number w1 = (Val (2 ^ 64 - 1), w1, [])).
  { unfold Handle_stopNum. rewrite Ht, bind_read, Hh. reflexivity. }
  split; [exact Hs|].
  rewrite (Handle_envelope fuel w0 Hrecv). unfold bind at 1.
  rewrite (serve_accepted fuel Hacc Hit). erewrite stopNum_run by exact Hs.
  unfold bind.
  destruct (deliverRange fuel (ab.Behavior seekInfo) cursor (2 ^ 64 - 1) w1)
    as [[[[]|o] w2] t2];
    cbn; [destruct (Handle fuel w2) as [[r w3] t3]|]; reflexivity.
Qed.

(** *** The cursor loop *)

Lemma awaitReady_Ready behavior cursor w w1 :
  Ready behavior cursor w w1 ->
  awaitReady behavior cursor w = (Val tt, w1, [readyEvent behavior]).
Proof.
  destruct behavior; cbn [Ready readyEvent awaitReady].
  - intros Hr. unfold await. rewrite Hr. reflexivity.
  - intros [Hr ->]. unfold bind, call. rewrite Hr. reflexivity.
Qed.

(** The three ways the readiness test can go. *)
Lemma awaitReady_cases behavior cursor w r w1 t :
  awaitReady behavior cursor w = (r, w1, t) ->
  (r = Val tt /\ t = [readyEvent behavior] /\ Ready behavior cursor w w1) \/
  (behavior = ab.SeekInfo_BLOCK_UNTIL_READY /\ r = Halt Blocked /\ t = []) \/
  (behavior = ab.SeekInfo_FAIL_IF_NOT_READY /\
   exists err, r = Halt (Returned err) /\
               t = [EvReadyPoll false; EvSend (StatusReply cb.Status_NOT_FOUND) err]).
Proof.
  destruct behavior; cbn [awaitReady Ready readyEvent].
  - unfold await. destruct (ReadyChan_recv cursor w) as [w2|] eqn:Hr; cbn;
      intros H; inversion H; subst; auto.
  - unfold bind, call. destruct (ReadyChan_ready cursor w) eqn:Hr; cbn.
    + intros H; inversion H; subst; auto.
    + unfold reject, sendStatusReply, bind, call, returnWith, halt.
      destruct (srv_Send (StatusReply cb.Status_NOT_FOUND) w) as [err w2].
      intros H; inversion H; subst. right; right. eauto.
Qed.

(** One trouble-free iteration: either it was the last one, or the loop
    goes round again. *)
Lemma cursorLoop_delivers1 fuel behavior cursor stopNum w b w' :
  Delivers1 behavior cursor w b w' ->
  cursorLoop (S fuel) behavior cursor stopNum w =
  prepend (deliveryTrace behavior [b])
          (if stopNum =? blockNumber b
           then (Val tt, w', [])
           else cursorLoop fuel behavior cursor stopNum w').
Proof.
  intros (w1 & w2 & Hr & Hn & Hs). cbn [cursorLoop].
  erewrite bind_val by (apply awaitReady_Ready; exact Hr).
  erewrite bind_val by (unfold call; rewrite Hn; reflexivity).
  cbn [fst snd].
  erewrite bind_val by (unfold sendBlockReply, call; rewrite Hs; reflexivity).
  rewrite !prepend_app. unfold blockNumber.
  destruct (stopNum =? cb.Number (cb.Header b)); reflexivity.
Qed.

Lemma deliveryTrace_app behavior bs1 bs2 :
  deliveryTrace behavior (bs1 ++ bs2) =
  deliveryTrace behavior bs1 ++ deliveryTrace behavior bs2.
Proof. unfold deliveryTrace. apply flat_map_app. Qed.

(** As long as no delivered block carries the stop number, the loop is
    still going. *)
Lemma cursorLoop_delivers fuel behavior cursor stopNum w bs w' :
  Delivers behavior cursor w bs w' ->
  Forall (fun b => blockNumber b <> stopNum) bs ->
  cursorLoop (List.length bs + fuel) behavior cursor stopNum w =
  prepend (deliveryTrace behavior bs) (cursorLoop fuel behavior cursor stopNum w').
Proof.
  induction 1 as [w | w b w1 bs w2 H1 Hrest IH]; intros Hne.
  - cbn. now rewrite prepend_nil.
  - inversion Hne as [| ? ? Hb Hbs]; subst.
    cbn [List.length Nat.add]. rewrite (cursorLoop_delivers1 _ _ H1).
    destruct (Z.eqb_spec stopNum (blockNumber b)) as [Heq | _];
      [symmetry in Heq; contradiction |].
    rewrite (IH Hbs), prepend_app.
    change (b :: bs) with ([b] ++ bs). now rewrite deliveryTrace_app.
Qed.

(** Every trace of the loop is one of [LoopTrace]. *)
Lemma cursorLoop_traces behavior cursor stopNum fuel :
  forall w r w' t,
    cursorLoop fuel behavior cursor stopNum w = (r, w', t) ->
    LoopTrace behavior stopNum r t.
Proof.
  induction fuel as [| fuel IH]; intros w r w' t Hrun.
  - inversion Hrun; subst. constructor.
  - cbn [cursorLoop] in Hrun. unfold bind at 1 in Hrun.
    destruct (awaitReady behavior cursor w) as [[ra wa] ta] eqn:Ha.
    apply awaitReady_cases in Ha.
    destruct Ha as [(-> & -> & Hready) | [(Hb & -> & ->) | (Hb & err & -> & ->)]].
    + unfold bind at 1, call at 1 in Hrun.
      destruct (Iterator_Next cursor wa) as [[b s] w2] eqn:Hn. cbn [fst snd] in Hrun.
      destruct s;
        try (unfold reject, sendStatusReply, bind, call, returnWith, halt in Hrun;
             match type of Hrun with
             | context [srv_Send ?m ?x] => destruct (srv_Send m x) as [err w3]
             end;
             inversion Hrun; subst; apply LT_fault; discriminate).
      unfold bind at 1, sendBlockReply, call at 1 in Hrun.
      destruct (srv_Send (BlockReply b) w2) as [[e|] w3] eqn:Hs.
      * inversion Hrun; subst. apply LT_send_failed.
      * destruct (Z.eqb_spec stopNum (cb.Number (cb.Header b))) as [Heq | Hne].
        -- inversion Hrun; subst. apply LT_last. reflexivity.
        -- destruct (cursorLoop fuel behavior cursor stopNum w3)
             as [[r3 w4] t3] eqn:Hloop.
           inversion Hrun; subst.
           apply LT_more.
           ++ unfold blockNumber. congruence.
           ++ eapply IH. exact Hloop.
    + inversion Hrun; subst. now apply LT_blocked.
    + inversion Hrun; subst. now apply LT_not_ready.
Qed.

Lemma LoopTrace_break behavior stopNum r t :
  LoopTrace behavior stopNum r t ->
  r = Val tt ->
  exists t0 b,
    t = t0 ++ [EvNext b cb.Status_SUCCESS; EvSend (BlockReply b) None] /\
    blockNumber b = stopNum.
Proof.
  induction 1 as [| | | | | b Hb | b r t Hb Hrest IH]; intros Hr; try discriminate.
  - exists [readyEvent behavior], b. split; [reflexivity | exact Hb].
  - destruct (IH Hr) as (t0 & b' & -> & Hb').
    exists (deliveryTrace behavior [b] ++ t0), b'.
    split; [now rewrite app_assoc | exact Hb'].
Qed.

(** C10.  The loop breaks only right after sending a block whose number
    is the stop number.  Sending a block with a larger number makes it go
    round again.  So, through iterations in which the cursor is ready,
    yields a block and the block goes out: while no block carries the stop
    number the loop is still running, however many were delivered, and it
    breaks with the first block that does. *)
Theorem cursor_loop_ends_exactly_at_stop :
  forall behavior cursor stopNum,
    (forall fuel w w' t,
        cursorLoop fuel behavior cursor stopNum w = (Val tt, w', t) ->
        exists t0 b,
          t = t0 ++ [EvNext b cb.Status_SUCCESS; EvSend (BlockReply b) None] /\
          blockNumber b = stopNum) /\
    (forall fuel w b w',
        Delivers1 behavior cursor w b w' ->
        stopNum < blockNumber b ->
        cursorLoop (S fuel) behavior cursor stopNum w =
        prepend (deliveryTrace behavior [b])
                (cursorLoop fuel behavior cursor stopNum w')) /\
    (forall w bs w',
        Delivers behavior cursor w bs w' ->
        Forall (fun b => blockNumber b <> stopNum) bs ->
        cursorLoop (List.length bs) behavior cursor stopNum w =
        (Halt OutOfFuel, w', deliveryTrace behavior bs) /\
        forall b w'' fuel,
          Delivers1 behavior cursor w' b w'' ->
          blockNumber b = stopNum ->
          (List.length bs < fuel)%nat ->
          cursorLoop fuel behavior cursor stopNum w =
          (Val tt, w'', deliveryTrace behavior (bs ++ [b]))).
Proof.
  intros behavior cursor stopNum. split; [|split].
  - intros fuel w w' t Hrun.
    eapply LoopTrace_break; [eapply cursorLoop_traces; exact Hrun | reflexivity].
  - intros fuel w b w' Hd Hgt.
    rewrite (cursorLoop_delivers1 fuel stopNum Hd).
    destruct (Z.eqb_spec stopNum (blockNumber b)); [lia | reflexivity].
  - intros w bs w' Hd Hne. split.
    + rewrite <- (Nat.add_0_r (List.length bs)).
      rewrite (cursorLoop_delivers 0 Hd Hne).
      cbn [cursorLoop]. unfold halt, prepend. now rewrite app_nil_r.
    + intros b w'' fuel Hlast Hb Hfuel.
      replace fuel with (List.length bs + S (fuel - S (List.length bs)))%nat by lia.
      rewrite (cursorLoop_delivers _ Hd Hne).
      rewrite (cursorLoop_delivers1 _ stopNum Hlast).
      rewrite Hb, Z.eqb_refl, deliveryTrace_app.
      unfold prepend. now rewrite app_nil_r.
Qed.

(** *** A range of one block *)

(** C5.  An accepted request whose stop number comes out equal to the
    number its iterator reports, served by a cursor that is ready and
    yields the block with that number, over a stream that takes the
    responses: the block is sent, then SUCCESS, nothing else, and the
    session is back at reading the next message. *)
Theorem single_block_range :
  forall fuel w0 w w1 w2 w3 envelope chain seekInfo start stop cursor number block,
    srv_Recv w0 = Some (RecvEnvelope envelope, w) ->
    Accepted w envelope chain seekInfo start stop ->
    Reader_Iterator chain start w = ((cursor, number), w1) ->
    Handle_stopNum chain stop number w1 = (Val number, w1, []) ->
    Delivers1 (ab.Behavior seekInfo) cursor w1 block w2 ->
    blockNumber block = number ->
    srv_Send (StatusReply cb.Status_SUCCESS) w2 = (None, w3) ->
    Handle (S (S fuel)) w0 =
    prepend [EvRecv (RecvEnvelope envelope);
             EvIterator number;
             readyEvent (ab.Behavior seekInfo);
             EvNext block cb.Status_SUCCESS;
             EvSend (BlockReply block) None;
             EvSend (StatusReply cb.Status_SUCCESS) None]
            (Handle (S fuel) w3).
Proof.
  intros fuel w0 w w1 w2 w3 envelope chain seekInfo start stop cursor number block
         Hrecv Hacc Hit Hstop Hd Hb Hsend.
  rewrite (Handle_envelope (S fuel) w0 Hrecv).
  erewrite bind_val with (a := tt) (w1 := w3)
    (t1 := [EvIterator number; readyEvent (ab.Behavior seekInfo);
            EvNext block cb.Status_SUCCESS; EvSend (BlockReply block) None;
            EvSend (StatusReply cb.Status_SUCCESS) None]).
  - now rewrite prepend_app.
  - rewrite (serve_accepted (S fuel) Hacc Hit).
    erewrite stopNum_run by exact Hstop.
    unfold deliverRange.
    erewrite bind_val with (a := tt) (w1 := w2)
      (t1 := deliveryTrace (ab.Behavior seekInfo) [block]).
    + erewrite bind_val
        by (unfold sendStatusReply, call; rewrite Hsend; reflexivity).
      reflexivity.
    + rewrite (cursorLoop_delivers1 fuel number Hd), Hb, Z.eqb_refl. cbn.
      reflexivity.
Qed.

(** *** Every run stays within the trace shapes *)

Lemma reject_cases {A} status w (r : Res A) w' t :
  reject status w = (r, w', t) ->
  exists err, r = Halt (Returned err) /\ t = [EvSend (StatusReply status) err].
Proof.
  unfold reject, sendStatusReply, bind, call, returnWith, halt.
  destruct (srv_Send (StatusReply status) w) as [err w2].
  intros H; inversion H; subst. eauto.
Qed.

Lemma reject_traces status w r w' t :
  reject status w = (r, w', t) -> RequestTrace r t.
Proof.
  intros H. apply reject_cases in H. destruct H as (err & -> & ->).
  apply RT_turned_down.
Qed.

Lemma deliverRange_traces fuel behavior cursor stopNum number w r w' t :
  deliverRange fuel behavior cursor stopNum w = (r, w', t) ->
  RequestTrace r (EvIterator number :: t).
Proof.
  unfold deliverRange, bind at 1.
  destruct (cursorLoop fuel behavior cursor stopNum w) as [[[[] | o] w1] t1] eqn:Hloop;
    apply cursorLoop_traces in Hloop.
  - unfold bind, sendStatusReply, call, returnWith, halt, ret.
    destruct (srv_Send (StatusReply cb.Status_SUCCESS) w1) as [[e |] w2];
      intros H; inversion H; subst.
    + cbn [app]. eapply RT_success_not_sent; exact Hloop.
    + cbn [app]. eapply RT_success; exact Hloop.
  - intros H; inversion H; subst.
    eapply RT_loop_ends_run; exact Hloop.
Qed.

Lemma serve_traces fuel envelope w r w' t :
  serve fuel envelope w = (r, w', t) -> RequestTrace r t.
Proof.
  unfold serve.
  destruct (UnmarshalPayload (cb.EPayload envelope)) as [payload |]; cbn [orElse];
    [rewrite bind_ret_l | rewrite bind_halt_reject; apply reject_traces].
  destruct (cb.PHeader payload) as [header |]; cbn [orElse];
    [rewrite bind_ret_l | rewrite bind_halt_reject; apply reject_traces].
  destruct (UnmarshalChannelHeader (cb.ChannelHeader_ header)) as [chdr |];
    cbn [orElse];
    [rewrite bind_ret_l | rewrite bind_halt_reject; apply reject_traces].
  rewrite bind_read.
  destruct (sm_GetChain (cb.ChannelId chdr) w) as [chain |]; cbn [orElse];
    [rewrite bind_ret_l | rewrite bind_halt_reject; apply reject_traces].
  rewrite bind_read.
  destruct (sf_Apply chain envelope w); try apply reject_traces.
  destruct (Unmarshal_SeekInfo (cb.PData payload)) as [seekInfo |]; cbn [orElse];
    [rewrite bind_ret_l | rewrite bind_halt_reject; apply reject_traces].
  destruct (ab.Start seekInfo) as [start |]; [| apply reject_traces].
  destruct (ab.Stop seekInfo) as [stop |]; [| apply reject_traces].
  unfold bind at 1, call at 1.
  destruct (Reader_Iterator chain start w) as [[cursor number] w1].
  cbn [fst snd].
  destruct ((stopNum <- Handle_stopNum chain stop number ;;
             deliverRange fuel (ab.Behavior seekInfo) cursor stopNum) w1)
    as [[r2 w2] t2] eqn:Hrest.
  intros H; inversion H; subst. cbn [app].
  revert Hrest. unfold bind at 1.
  destruct (Handle_stopNum chain stop number w1) as [[[stopNum | o] w3] t3] eqn:Hs.
  - assert (t3 = []) as ->.
    { revert Hs. unfold Handle_stopNum.
      destruct (ab.Type_ stop) as [[| | n] |]; try rewrite bind_read;
        try (intros H'; inversion H'; reflexivity).
      destruct (n <? number).
      - intros H'. apply reject_cases in H'. destruct H' as (? & ? & _). discriminate.
      - intros H'; inversion H'; reflexivity. }
    destruct (deliverRange fuel (ab.Behavior seekInfo) cursor stopNum w3)
      as [[r4 w4] t4] eqn:Hd.
    intros H'; inversion H'; subst. cbn [app].
    eapply deliverRange_traces; exact Hd.
  - intros H'; inversion H'; subst.
    revert Hs. unfold Handle_stopNum.
    destruct (ab.Type_ stop) as [[| | n] |]; try rewrite bind_read;
      try (intros H''; inversion H''; fail).
    destruct (n <? number); [| intros H''; inversion H''].
    intros H''. apply reject_cases in H''. destruct H'' as (err & Ho & ->).
    inversion Ho; subst. apply RT_bad_range.
Qed.

Lemma Handle_traces fuel :
  forall w r w' t, Handle fuel w = (r, w', t) -> SessionTrace r t.
Proof.
  induction fuel as [| fuel IH]; intros w r w' t.
  - intros H; inversion H; subst. constructor.
  - cbn [Handle]. unfold bind at 1, await.
    destruct (srv_Recv w) as [[[| e | envelope] w1] |].
    + intros H; inversion H; subst. constructor.
    + intros H; inversion H; subst. constructor.
    + unfold bind.
      destruct (serve fuel envelope w1) as [[[[] | o] w2] t2] eqn:Hs;
        apply serve_traces in Hs.
      * destruct (Handle fuel w2) as [[r3 w3] t3] eqn:Hh. apply IH in Hh.
        intros H; inversion H; subst. cbn [app].
        apply ST_next; assumption.
      * intros H; inversion H; subst. cbn [app]. apply ST_last. exact Hs.
    + intros H; inversion H; subst. constructor.
Qed.

(** *** Fuel is only a budget

    A run that ended otherwise than by running out of fuel ends the same
    way, in the same state and with the same trace, on any larger budget. *)

Definition settles {A} (m1 m2 : M World A) : Prop :=
  forall w r w' t,
    m1 w = (r, w', t) -> r <> Halt OutOfFuel -> m2 w = (r, w', t).

Lemma settles_refl {A} (m : M World A) : settles m m.
Proof. intros w r w' t H _. exact H. Qed.

Lemma settles_bind {A B} (m1 m2 : M World A) (k1 k2 : A -> M World B) :
  settles m1 m2 ->
  (forall a, settles (k1 a) (k2 a)) ->
  settles (bind m1 k1) (bind m2 k2).
Proof.
  intros Hm Hk w r w' t. unfold bind.
  destruct (m1 w) as [[[a | o] w1] t1] eqn:H1.
  - destruct (k1 a w1) as [[r2 w2] t2] eqn:H2.
    intros H Hne. inversion H; subst.
    rewrite (Hm _ _ _ _ H1) by discriminate.
    now rewrite (Hk a _ _ _ _ H2 Hne).
  - intros H Hne. inversion H; subst.
    rewrite (Hm _ _ _ _ H1); [reflexivity |].
    intros Ho. apply Hne. injection Ho as ->. reflexivity.
Qed.

Lemma cursorLoop_settles behavior cursor stopNum fuel k :
  settles (cursorLoop fuel behavior cursor stopNum)
          (cursorLoop (fuel + k) behavior cursor stopNum).
Proof.
  induction fuel as [| fuel IH].
  - intros w r w' t H Hne. inversion H; subst. contradiction.
  - cbn [Nat.add cursorLoop].
    apply settles_bind; [apply settles_refl | intros _].
    apply settles_bind; [apply settles_refl | intros [b s]].
    destruct s; try apply settles_refl.
    apply settles_bind; [apply settles_refl | intros [e |]];
      [apply settles_refl |].
    destruct (stopNum =? cb.Number (cb.Header b)); [apply settles_refl | exact IH].
Qed.

Lemma serve_settles envelope fuel k :
  settles (serve fuel envelope) (serve (fuel + k) envelope).
Proof.
  unfold serve.
  do 6 (apply settles_bind; [apply settles_refl | intros ?]).
  match goal with
  | |- settles (match ?result with _ => _ end) _ => destruct result
  end; try apply settles_refl.
  apply settles_bind; [apply settles_refl | intros seekInfo].
  destruct (ab.Start seekInfo); [| apply settles_refl].
  destruct (ab.Stop seekInfo); [| apply settles_refl].
  apply settles_bind; [apply settles_refl | intros [cursor number]].
  apply settles_bind; [apply settles_refl | intros stopNum].
  unfold deliverRange.
  apply settles_bind; [apply cursorLoop_settles | intros _; apply settles_refl].
Qed.

Lemma Handle_settles fuel k : settles (Handle fuel) (Handle (fuel + k)).
Proof.
  induction fuel as [| fuel IH].
  - intros w r w' t H Hne. inversion H; subst. contradiction.
  - cbn [Nat.add Handle].
    apply settles_bind; [apply settles_refl | intros [| e | envelope]];
      try apply settles_refl.
    apply settles_bind; [apply serve_settles | intros _; exact IH].
Qed.

(** *** Locating an event in a trace *)

Lemma split_app {A} (l1 l2 pre : list A) e post :
  l1 ++ l2 = pre ++ e :: post ->
  (exists l, l1 = pre ++ e :: l /\ post = l ++ l2) \/
  (exists l, pre = l1 ++ l /\ l2 = l ++ e :: post).
Proof.
  revert pre. induction l1 as [| x l1 IH]; intros pre H.
  - right. exists pre. auto.
  - destruct pre as [| y pre]; cbn [app] in H.
    + injection H as -> <-. left. exists l1. auto.
    + injection H as -> H. destruct (IH _ H) as [(l & -> & ->) | (l & -> & ->)].
      * left. exists l. auto.
      * right. exists l. auto.
Qed.

(** Walks [H : x1 :: ... :: xn :: l = pre ++ e :: post] through the known
    events: one goal for each [xi] that [e] may be, and one for [e] in [l]. *)
Ltac locate H :=
  match type of H with
  | [] = ?l ++ _ :: _ => destruct l; discriminate H
  | _ :: _ = ?l ++ _ :: _ =>
      let x := fresh "x" in
      let l' := fresh "pre" in
      let Hx := fresh "Hx" in
      let H' := fresh "H" in
      destruct l as [| x l']; cbn [app] in H;
      [ | injection H as Hx H'; subst x; rename H' into H; locate H ]
  | _ => idtac
  end.

Lemma readyEvent_not_failed behavior : readyEvent behavior <> EvReadyPoll false.
Proof. destruct behavior; discriminate. Qed.

(** *** A readiness test that fails *)

Lemma LoopTrace_not_ready behavior stopNum r t :
  LoopTrace behavior stopNum r t ->
  forall pre post,
    t = pre ++ EvReadyPoll false :: post ->
    exists err,
      post = [EvSend (StatusReply cb.Status_NOT_FOUND) err] /\
      r = Halt (Returned err).
Proof.
  induction 1 as [| Hbeh | err Hbeh | b s err Hs | b e | b Hb | b r t Hb Hrest IH];
    intros pre post H; cbn [deliveryTrace flat_map app] in H; locate H;
    try discriminate H;
    try (injection H as H _; apply readyEvent_not_failed in H; contradiction).
  - injection H as <-. eauto.
  - eapply IH. exact H.
Qed.

Lemma RequestTrace_not_ready r t :
  RequestTrace r t ->
  forall pre post,
    t = pre ++ EvReadyPoll false :: post ->
    exists err,
      post = [EvSend (StatusReply cb.Status_NOT_FOUND) err] /\
      r = Halt (Returned err).
Proof.
  destruct 1 as [status err | number err | behavior stopNum number o t Hloop
                 | behavior stopNum number t e Hloop | behavior stopNum number t Hloop];
    intros pre post H; locate H; try discriminate H.
  - eapply LoopTrace_not_ready; eassumption.
  - apply split_app in H. destruct H as [(l & -> & ->) | (l & -> & H)].
    + destruct (LoopTrace_not_ready Hloop _ _ eq_refl) as (? & _ & ?). discriminate.
    + locate H. discriminate H.
  - apply split_app in H. destruct H as [(l & -> & ->) | (l & -> & H)].
    + destruct (LoopTrace_not_ready Hloop _ _ eq_refl) as (? & _ & ?). discriminate.
    + locate H. discriminate H.
Qed.

Lemma SessionTrace_not_ready r t :
  SessionTrace r t ->
  forall pre post,
    t = pre ++ EvReadyPoll false :: post ->
    exists err,
      post = [EvSend (StatusReply cb.Status_NOT_FOUND) err] /\
      r = Halt (Returned err).
Proof.
  induction 1 as [| | | e | envelope o t Hreq | envelope t r t' Hreq Hrest IH];
    intros pre post H; locate H; try discriminate H.
  - destruct (RequestTrace_not_ready Hreq _ _ H) as (err & -> & Ho).
    injection Ho as ->. eauto.
  - apply split_app in H. destruct H as [(l & -> & ->) | (l & -> & H)].
    + destruct (RequestTrace_not_ready Hreq _ _ eq_refl) as (? & _ & ?). discriminate.
    + eapply IH. exact H.
Qed.

(** *** The responses to one request *)

Lemma responses_app t1 t2 : responses (t1 ++ t2) = responses t1 ++ responses t2.
Proof.
  induction t1 as [| e t1 IH]; [reflexivity |].
  destruct e; cbn; now rewrite ?IH.
Qed.

Lemma pulled_app t1 t2 : pulled (t1 ++ t2) = pulled t1 ++ pulled t2.
Proof.
  induction t1 as [| e t1 IH]; [reflexivity |].
  destruct e as [| | | | | b s]; cbn; rewrite ?IH; try reflexivity.
  destruct s; reflexivity.
Qed.

Lemma noRecv_app t1 t2 : noRecv (t1 ++ t2) <-> noRecv t1 /\ noRecv t2.
Proof. unfold noRecv. rewrite forallb_app. apply andb_true_iff. Qed.

Lemma noRecv_no_recv t pre x post : noRecv t -> t <> pre ++ EvRecv x :: post.
Proof.
  intros Hn ->. apply noRecv_app in Hn. destruct Hn as [_ Hn]. discriminate Hn.
Qed.

Lemma LoopTrace_responses behavior stopNum r t :
  LoopTrace behavior stopNum r t ->
  noRecv t /\
  match r with
  | Val _ => responses t = map BlockReply (pulled t)
  | Halt (Returned None) =>
      exists s, responses t = map BlockReply (pulled t) ++ [StatusReply s]
  | Halt _ => True
  end.
Proof.
  induction 1 as [| Hbeh | err Hbeh | b s err Hs | b e | b Hb | b r t Hb Hrest IH].
  - split; [reflexivity | exact I].
  - split; [reflexivity | exact I].
  - split; [reflexivity |]. destruct err; [exact I |]. now exists cb.Status_NOT_FOUND.
  - split; [now destruct behavior |].
    destruct err; [exact I |]. exists s.
    destruct behavior, s; try reflexivity; contradiction.
  - split; [now destruct behavior | exact I].
  - split; now destruct behavior.
  - destruct IH as [Hn IH]. split.
    + apply noRecv_app. split; [now destruct behavior | exact Hn].
    + rewrite responses_app, pulled_app.
      replace (responses (deliveryTrace behavior [b])) with [BlockReply b]
        by now destruct behavior.
      replace (pulled (deliveryTrace behavior [b])) with [b]
        by now destruct behavior.
      destruct r as [[] | [[e |] | |]]; try exact I.
      * cbn. now rewrite IH.
      * destruct IH as (s & IH). exists s. cbn. now rewrite IH.
Qed.

Lemma RequestTrace_responses r t :
  RequestTrace r t ->
  noRecv t /\
  (r = Val tt \/ r = Halt (Returned None) ->
   exists s, responses t = map BlockReply (pulled t) ++ [StatusReply s]).
Proof.
  destruct 1 as [status err | number err | behavior stopNum number o t Hloop
                 | behavior stopNum number t e Hloop | behavior stopNum number t Hloop].
  - split; [reflexivity |]. intros _. now exists status.
  - split; [reflexivity |]. intros _. now exists cb.Status_BAD_REQUEST.
  - destruct (LoopTrace_responses Hloop) as [Hn Hr]. split; [exact Hn |].
    intros [Ho | Ho]; [discriminate |]. injection Ho as ->. exact Hr.
  - destruct (LoopTrace_responses Hloop) as [Hn Hr]. split.
    + change (noRecv ([EvIterator number] ++ t ++
                      [EvSend (StatusReply cb.Status_SUCCESS) (Some e)])).
      rewrite !noRecv_app. repeat split; try assumption; reflexivity.
    + intros [Ho | Ho]; discriminate.
  - destruct (LoopTrace_responses Hloop) as [Hn Hr]. split.
    + change (noRecv ([EvIterator number] ++ t ++
                      [EvSend (StatusReply cb.Status_SUCCESS) None])).
      rewrite !noRecv_app. repeat split; try assumption; reflexivity.
    + intros _. exists cb.Status_SUCCESS.
      cbn [responses pulled]. rewrite responses_app, pulled_app, Hr. cbn.
      now rewrite app_nil_r.
Qed.

(** *** The responses between two reads *)

(** What is left of a trace after a request is nothing, or starts with a read. *)
Definition atRead (t : list Event) : Prop :=
  t = [] \/ exists x post, t = EvRecv x :: post.

Lemma SessionTrace_atRead r t : SessionTrace r t -> atRead t.
Proof.
  destruct 1; unfold atRead; eauto.
Qed.

Lemma segment_unique (a b ra rb : list Event) :
  noRecv a -> noRecv b -> atRead ra -> atRead rb ->
  a ++ ra = b ++ rb -> a = b /\ ra = rb.
Proof.
  revert b. induction a as [| x a IH]; intros [| y b] Ha Hb Hra Hrb H; cbn [app] in H.
  - auto.
  - destruct Hra as [-> | (z & post & ->)]; [discriminate |].
    injection H as <- _. discriminate Hb.
  - destruct Hrb as [-> | (z & post & ->)]; [discriminate |].
    injection H as -> _. discriminate Ha.
  - injection H as -> H.
    change (noRecv ([y] ++ a)) in Ha. change (noRecv ([y] ++ b)) in Hb.
    apply noRecv_app in Ha, Hb.
    destruct (IH b (proj2 Ha) (proj2 Hb) Hra Hrb H) as [-> ->]. auto.
Qed.

Lemma SessionTrace_segments r t :
  SessionTrace r t ->
  forall pre envelope seg rest,
    t = pre ++ EvRecv (RecvEnvelope envelope) :: seg ++ rest ->
    noRecv seg ->
    (rest = [] /\ r = Halt (Returned None)) \/
    (exists x post, rest = EvRecv x :: post) ->
    exists s, responses seg = map BlockReply (pulled seg) ++ [StatusReply s].
Proof.
  induction 1 as [| | | e | envelope o t Hreq | envelope t r t' Hreq Hrest IH];
    intros pre envelope' seg rest H Hseg Hafter;
    try (locate H; discriminate H).
  - destruct (RequestTrace_responses Hreq) as [Hn Hr].
    destruct pre as [| x pre]; cbn [app] in H; injection H as _ H.
    + destruct Hafter as [[-> Ho] | (x & post & ->)].
      * rewrite app_nil_r in H. subst t. apply Hr. right.
        injection Ho as ->. reflexivity.
      * exfalso. eapply noRecv_no_recv; eassumption.
    + exfalso. eapply noRecv_no_recv; eassumption.
  - destruct (RequestTrace_responses Hreq) as [Hn Hr].
    destruct pre as [| x pre]; cbn [app] in H; injection H as _ H.
    + assert (Hrest' : atRead rest).
      { destruct Hafter as [[-> _] | Hx]; [now left | now right]. }
      destruct (segment_unique Hn Hseg (SessionTrace_atRead Hrest) Hrest' H)
        as [-> _].
      apply Hr. now left.
    + apply split_app in H. destruct H as [(l & -> & _) | (l & -> & H)].
      * exfalso. eapply noRecv_no_recv; [exact Hn | reflexivity].
      * eapply IH; eassumption.
Qed.

Lemma consecutive_lower n bs :
  consecutive n bs -> Forall (fun m => n <= m) (map blockNumber bs).
Proof.
  revert n. induction bs as [| b bs IH]; intros n; cbn.
  - constructor.
  - intros [Hb Hrest]. constructor; [lia |].
    eapply Forall_impl; [| apply IH; exact Hrest]. cbn. intros; lia.
Qed.

Lemma consecutive_increasing n bs :
  consecutive n bs -> StronglySorted Z.lt (map blockNumber bs).
Proof.
  revert n. induction bs as [| b bs IH]; intros n; cbn.
  - constructor.
  - intros [Hb Hrest]. constructor; [eapply IH; exact Hrest |].
    eapply Forall_impl; [| apply consecutive_lower; exact Hrest].
    cbn. intros; lia.
Qed.

(** C7.  In any run of Handle, take the events between the read of a
    request and the next read (or the end of a run that returned without
    error).  The responses sent there are the blocks the cursor yielded,
    each once and in the order it yielded them, followed by exactly one
    status.  So, if the cursor yielded consecutive numbers from the number
    the iterator reported, the block responses carry those numbers, in
    strictly increasing order and without a gap. *)
Theorem responses_between_reads :
  forall fuel w0 r w' t pre envelope seg rest,
    Handle fuel w0 = (r, w', t) ->
    t = pre ++ EvRecv (RecvEnvelope envelope) :: seg ++ rest ->
    noRecv seg ->
    (rest = [] /\ r = Halt (Returned None)) \/
    (exists x post, rest = EvRecv x :: post) ->
    exists bs s,
      responses seg = map BlockReply bs ++ [StatusReply s] /\
      bs = pulled seg /\
      forall number,
        In (EvIterator number) seg ->
        consecutive number (pulled seg) ->
        consecutive number bs /\ StronglySorted Z.lt (map blockNumber bs).
Proof.
  intros fuel w0 r w' t pre envelope seg rest Hrun Ht Hseg Hafter.
  assert (Hs : exists s, responses seg = map BlockReply (pulled seg) ++ [StatusReply s]).
  { eapply SessionTrace_segments; [eapply Handle_traces | | |]; eassumption. }
  destruct Hs as (s & Hs).
  exists (pulled seg), s. repeat split; try assumption.
  eapply consecutive_increasing; eassumption.
Qed.

End Properties.

(** * The properties on the concrete environment *)

Local Abbreviation StatusReply := ab.DeliverResponse_Status.
Local Abbreviation BlockReply := ab.DeliverResponse_Block.

(** Proves [Routed] and [Accepted] by running the decoders. *)
Ltac decode :=
  unfold Accepted, Routed;
  repeat match goal with
         | |- exists _, _ => eexists
         | |- _ /\ _ => split
         end;
  reflexivity.

(** The session of C6 on an unsigned request. *)
Lemma unauthorized_request_forbidden_witness :
  Handle (E := Demo.env) 1 (Demo.idle [Demo.unsignedRequest]) =
  (Halt (Returned None), Demo.idle [],
   [EvRecv (RecvEnvelope Demo.unsignedRequest);
    EvSend (StatusReply cb.Status_FORBIDDEN) None]).
Proof.
  eapply (@unauthorized_request_forbidden Demo.env 0).
  - reflexivity.
  - decode.
  - discriminate.
  - reflexivity.
Defined.

(** The sessions of C2 on a message without payload, on one whose
    SeekInfo does not parse, and on one whose SeekInfo lacks the stop. *)
Lemma malformed_message_bad_request_witness :
  (Handle (E := Demo.env) 1 (Demo.idle [Demo.noPayload]) =
   (Halt (Returned None), Demo.idle [],
    [EvRecv (RecvEnvelope Demo.noPayload);
     EvSend (StatusReply cb.Status_BAD_REQUEST) None])) /\
  (Handle (E := Demo.env) 1 (Demo.idle [Demo.noSeekInfo]) =
   (Halt (Returned None), Demo.idle [],
    [EvRecv (RecvEnvelope Demo.noSeekInfo);
     EvSend (StatusReply cb.Status_BAD_REQUEST) None])) /\
  (Handle (E := Demo.env) 1 (Demo.idle [Demo.noStop]) =
   (Halt (Returned None), Demo.idle [],
    [EvRecv (RecvEnvelope Demo.noStop);
     EvSend (StatusReply cb.Status_BAD_REQUEST) None])).
Proof.
  split; [| split].
  - eapply (@malformed_message_bad_request Demo.env 0).
    + reflexivity.
    + apply BadPayload. reflexivity.
    + reflexivity.
  - eapply (@malformed_message_bad_request Demo.env 0).
    + reflexivity.
    + eapply BadSeekInfo; [decode | reflexivity | reflexivity].
    + reflexivity.
  - eapply (@malformed_message_bad_request Demo.env 0).
    + reflexivity.
    + eapply NoStartOrStop; [decode | reflexivity | reflexivity | right; reflexivity].
    + reflexivity.
Defined.

(** C2 as stated fails.  Both messages carry a SeekInfo that does not
    parse.  The first names a channel the registry does not know: the
    session answers NOT_FOUND.  The second is not signed: the session
    answers FORBIDDEN.  Neither session ever sends BAD_REQUEST. *)
Lemma unparsable_seek_info_not_bad_request :
  ((exists payload,
       UnmarshalPayload (DeliverEnv := Demo.env)
                        (cb.EPayload Demo.noSeekInfoNoChannel) = Some payload /\
       Unmarshal_SeekInfo (DeliverEnv := Demo.env) (cb.PData payload) = None) /\
   Handle (E := Demo.env) 1 (Demo.idle [Demo.noSeekInfoNoChannel]) =
   (Halt (Returned None), Demo.idle [],
    [EvRecv (RecvEnvelope Demo.noSeekInfoNoChannel);
     EvSend (StatusReply cb.Status_NOT_FOUND) None]) /\
   forall fuel err,
     ~ In (EvSend (StatusReply cb.Status_BAD_REQUEST) err)
          (snd (Handle (E := Demo.env) fuel (Demo.idle [Demo.noSeekInfoNoChannel])))) /\
  ((exists payload,
       UnmarshalPayload (DeliverEnv := Demo.env)
                        (cb.EPayload Demo.noSeekInfoUnsigned) = Some payload /\
       Unmarshal_SeekInfo (DeliverEnv := Demo.env) (cb.PData payload) = None) /\
   Handle (E := Demo.env) 1 (Demo.idle [Demo.noSeekInfoUnsigned]) =
   (Halt (Returned None), Demo.idle [],
    [EvRecv (RecvEnvelope Demo.noSeekInfoUnsigned);
     EvSend (StatusReply cb.Status_FORBIDDEN) None]) /\
   forall fuel err,
     ~ In (EvSend (StatusReply cb.Status_BAD_REQUEST) err)
          (snd (Handle (E := Demo.env) fuel (Demo.idle [Demo.noSeekInfoUnsigned])))).
Proof.
  split; (split; [eexists; split; reflexivity | split; [reflexivity |]]);
    intros [| fuel] err; vm_compute; intros H;
    repeat (destruct H as [H | H]; [discriminate H |]); exact H.
Qed.

(** C3 on three requests that start at block 5 of a ledger of height 10:
    stop Oldest ends the range at 5, stop Newest at 9, stop Specified 200
    at 200. *)
Lemma stop_number_by_case_witness :
  Handle_stopNum (E := Demo.env) tt Demo.oldestPos 5 (Demo.idleAt 5 []) =
  (Val 5, Demo.idleAt 5 [], []) /\
  Handle_stopNum (E := Demo.env) tt Demo.newestPos 5 (Demo.idleAt 5 []) =
  (Val 9, Demo.idleAt 5 [], []) /\
  Handle_stopNum (E := Demo.env) tt (Demo.specified 200) 5 (Demo.idleAt 5 []) =
  (Val 200, Demo.idleAt 5 [], []).
Proof.
  split; [| split].
  - refine (proj1 (proj1 (@stop_number_by_case Demo.env 3
        (Demo.idle []) _ Demo.waitFrom5ToOldest _ _ _ _ _ _ _ _) _)).
    + decode.
    + reflexivity.
    + reflexivity.
  - refine (proj1 (proj1 (proj2 (@stop_number_by_case Demo.env 3
        (Demo.idle []) _ Demo.waitFrom5ToNewest _ _ _ _ _ _ _ _)) _)).
    + decode.
    + reflexivity.
    + reflexivity.
  - refine (proj1 (proj2 (proj2 (@stop_number_by_case Demo.env 3
        (Demo.idle []) _ Demo.waitFrom5To200 _ _ _ _ _ _ _ _)) 200 _ _)).
    + decode.
    + reflexivity.
    + reflexivity.
    + lia.
Defined.

(** C3 as stated fails.  The ledger retains blocks from 0 on.  A request
    from Specified 5 to Oldest is resolved to the stop number 5, which is
    not the oldest retained number: block 5 is delivered, then SUCCESS, and
    the session waits for the next message. *)
Lemma stop_oldest_is_not_the_oldest_bound :
  Reader_Iterator (DeliverEnv := Demo.env) tt (Demo.specified 5) (Demo.idle []) =
  ((tt, 5), Demo.idleAt 5 []) /\
  (exists stopNum,
      Handle_stopNum (E := Demo.env) tt Demo.oldestPos 5 (Demo.idleAt 5 []) =
      (Val stopNum, Demo.idleAt 5 [], []) /\
      stopNum <> Demo.oldest (Demo.idleAt 5 [])) /\
  Handle (E := Demo.env) 3 (Demo.idle [Demo.waitFrom5ToOldest]) =
  (Halt Blocked, Demo.idleAt 6 [],
   [EvRecv (RecvEnvelope Demo.waitFrom5ToOldest);
    EvIterator 5;
    EvReadyWait;
    EvNext (Demo.mkBlock 5) cb.Status_SUCCESS;
    EvSend (BlockReply (Demo.mkBlock 5)) None;
    EvSend (StatusReply cb.Status_SUCCESS) None]).
Proof.
  split; [reflexivity | split; [| reflexivity]].
  exists 5. split; [reflexivity | discriminate].
Qed.

(** The session of C4 on a request from 5 to 3. *)
Lemma stop_below_start_bad_request_witness :
  Handle (E := Demo.env) 1 (Demo.idle [Demo.waitFrom5To3]) =
  (Halt (Returned None), Demo.idleAt 5 [],
   [EvRecv (RecvEnvelope Demo.waitFrom5To3);
    EvIterator 5;
    EvSend (StatusReply cb.Status_BAD_REQUEST) None]).
Proof.
  eapply (@stop_below_start_bad_request Demo.env 0) with (n := 3).
  - reflexivity.
  - decode.
  - reflexivity.
  - reflexivity.
  - lia.
  - reflexivity.
Defined.

(** The session of C8 on a request whose stop position has no type. *)
Lemma unset_stop_type_runs_to_zero_witness :
  Handle_stopNum (E := Demo.env) tt Demo.unsetPos 5 (Demo.idleAt 5 []) =
  (Val 0, Demo.idleAt 5 [], []) /\
  Handle (E := Demo.env) 4 (Demo.idle [Demo.waitFrom5ToUnset]) =
  prepend [EvRecv (RecvEnvelope Demo.waitFrom5ToUnset); EvIterator 5]
          ((deliverRange (E := Demo.env) 3 ab.SeekInfo_BLOCK_UNTIL_READY tt 0 ;;; Handle (E := Demo.env) 3)
             (Demo.idleAt 5 [])).
Proof.
  eapply (@unset_stop_type_runs_to_zero Demo.env 3)
    with (seekInfo := Demo.waiting (Demo.specified 5) Demo.unsetPos).
  - reflexivity.
  - decode.
  - reflexivity.
  - reflexivity.
Defined.

(** The session of C9 on a ledger without any block. *)
Lemma newest_on_empty_ledger_wraps_witness :
  Handle_stopNum (E := Demo.env) tt Demo.newestPos 0 (Demo.empty []) =
  (Val 18446744073709551615, Demo.empty [], []) /\
  Handle (E := Demo.env) 4 (Demo.empty [Demo.waitOldestToNewest]) =
  prepend [EvRecv (RecvEnvelope Demo.waitOldestToNewest); EvIterator 0]
          ((deliverRange (E := Demo.env) 3 ab.SeekInfo_BLOCK_UNTIL_READY tt (2 ^ 64 - 1) ;;; Handle (E := Demo.env) 3)
             (Demo.empty [])).
Proof.
  eapply (@newest_on_empty_ledger_wraps Demo.env 3)
    with (seekInfo := Demo.waiting Demo.oldestPos Demo.newestPos).
  - reflexivity.
  - decode.
  - reflexivity.
  - reflexivity.
  - reflexivity.
Defined.

(** Proves [Delivers1] and [Delivers] by running the environment. *)
Ltac deliver1 :=
  do 2 eexists; cbn [Ready]; repeat split; reflexivity.
Ltac deliver :=
  repeat (first [apply Delivers_nil | eapply Delivers_cons; [deliver1 |]]).

(** The session of C5 on a request from 5 to Oldest. *)
Lemma single_block_range_witness :
  Handle (E := Demo.env) 2 (Demo.idle [Demo.waitFrom5ToOldest]) =
  prepend [EvRecv (RecvEnvelope Demo.waitFrom5ToOldest);
           EvIterator 5;
           EvReadyWait;
           EvNext (Demo.mkBlock 5) cb.Status_SUCCESS;
           EvSend (BlockReply (Demo.mkBlock 5)) None;
           EvSend (StatusReply cb.Status_SUCCESS) None]
          (Handle (E := Demo.env) 1 (Demo.idleAt 6 [])).
Proof.
  eapply (@single_block_range Demo.env 0)
    with (seekInfo := Demo.waiting (Demo.specified 5) Demo.oldestPos).
  - reflexivity.
  - decode.
  - reflexivity.
  - reflexivity.
  - deliver1.
  - reflexivity.
  - reflexivity.
Defined.

(** C10 on the idle ledger, from block 5.  With stop number 6 the loop
    breaks after block 6.  With stop number 3 it goes on after block 5.
    With stop number 8 it is still running after blocks 5, 6 and 7, and
    breaks after block 8. *)
Lemma cursor_loop_ends_exactly_at_stop_witness :
  (exists t0 b,
      Demo.deliveryTrace56 =
      t0 ++ [EvNext b cb.Status_SUCCESS; EvSend (BlockReply b) None] /\
      blockNumber b = 6) /\
  cursorLoop (E := Demo.env) 3 ab.SeekInfo_BLOCK_UNTIL_READY tt 3 (Demo.idleAt 5 []) =
  prepend (deliveryTrace ab.SeekInfo_BLOCK_UNTIL_READY [Demo.mkBlock 5])
          (cursorLoop (E := Demo.env) 2 ab.SeekInfo_BLOCK_UNTIL_READY tt 3
                      (Demo.idleAt 6 [])) /\
  cursorLoop (E := Demo.env) 3 ab.SeekInfo_BLOCK_UNTIL_READY tt 8 (Demo.idleAt 5 []) =
  (Halt OutOfFuel, Demo.idleAt 8 [],
   deliveryTrace ab.SeekInfo_BLOCK_UNTIL_READY
                 [Demo.mkBlock 5; Demo.mkBlock 6; Demo.mkBlock 7]) /\
  cursorLoop (E := Demo.env) 4 ab.SeekInfo_BLOCK_UNTIL_READY tt 8 (Demo.idleAt 5 []) =
  (Val tt, Demo.idleAt 9 [],
   deliveryTrace ab.SeekInfo_BLOCK_UNTIL_READY
                 [Demo.mkBlock 5; Demo.mkBlock 6; Demo.mkBlock 7; Demo.mkBlock 8]).
Proof.
  split; [| split; [| split]].
  - refine (proj1 (@cursor_loop_ends_exactly_at_stop Demo.env
                     ab.SeekInfo_BLOCK_UNTIL_READY tt 6)
                  2%nat (Demo.idleAt 5 []) (Demo.idleAt 7 []) _ _).
    reflexivity.
  - refine (proj1 (proj2 (@cursor_loop_ends_exactly_at_stop Demo.env
                            ab.SeekInfo_BLOCK_UNTIL_READY tt 3))
                  2%nat (Demo.idleAt 5 []) (Demo.mkBlock 5) (Demo.idleAt 6 []) _ _).
    + deliver1.
    + reflexivity.
  - refine (proj1 (proj2 (proj2 (@cursor_loop_ends_exactly_at_stop Demo.env
                                   ab.SeekInfo_BLOCK_UNTIL_READY tt 8))
                         (Demo.idleAt 5 [])
                         [Demo.mkBlock 5; Demo.mkBlock 6; Demo.mkBlock 7]
                         (Demo.idleAt 8 []) _ _)).
    + deliver.
    + repeat constructor; discriminate.
  - refine (proj2 (proj2 (proj2 (@cursor_loop_ends_exactly_at_stop Demo.env
                                   ab.SeekInfo_BLOCK_UNTIL_READY tt 8))
                         (Demo.idleAt 5 [])
                         [Demo.mkBlock 5; Demo.mkBlock 6; Demo.mkBlock 7]
                         (Demo.idleAt 8 []) _ _)
                  (Demo.mkBlock 8) (Demo.idleAt 9 []) 4%nat _ _ _).
    + deliver.
    + repeat constructor; discriminate.
    + deliver1.
    + reflexivity.
    + cbn. lia.
Defined.

(** C1 as stated fails.  The client has queued two requests.  The first
    asks for blocks 10 to 12 under FAIL_IF_NOT_READY on a ledger that ends
    at block 9.  Handle sends NOT_FOUND and returns nil: the second request
    is still in the inbox, and no amount of fuel makes the handler read it. *)
Lemma session_ends_after_not_found :
  Handle (E := Demo.env) 2 (Demo.idle [Demo.failFrom10To12; Demo.failOldestToOldest]) =
  (Halt (Returned None),
   Demo.idleAt 10 [Demo.failOldestToOldest],
   [EvRecv (RecvEnvelope Demo.failFrom10To12);
    EvIterator 10;
    EvReadyPoll false;
    EvSend (StatusReply cb.Status_NOT_FOUND) None]) /\
  forall fuel,
    ~ In (EvRecv (RecvEnvelope Demo.failOldestToOldest))
         (snd (Handle (E := Demo.env) fuel
                 (Demo.idle [Demo.failFrom10To12; Demo.failOldestToOldest]))).
Proof.
  split; [reflexivity |].
  intros [| [| fuel]]; vm_compute; intros H;
    repeat (destruct H as [H | H]; [discriminate H |]); exact H.
Qed.

(** C7 on a session that serves blocks 7 and 8 and then reads a second
    request: between the two reads the responses are block 7, block 8 and
    one status. *)
Lemma responses_between_reads_witness :
  exists bs s,
    responses Demo.servedFrom7To8 = map BlockReply bs ++ [StatusReply s] /\
    consecutive 7 bs /\
    StronglySorted Z.lt (map blockNumber bs).
Proof.
  destruct (@responses_between_reads Demo.env
              5%nat (Demo.idle [Demo.waitFrom7To8; Demo.failFrom10To12])
              (Halt (Returned None))
              (Demo.idleAt 10 [])
              _
              []
              Demo.waitFrom7To8
              Demo.servedFrom7To8
              [EvRecv (RecvEnvelope Demo.failFrom10To12);
               EvIterator 10;
               EvReadyPoll false;
               EvSend (StatusReply cb.Status_NOT_FOUND) None]
              eq_refl eq_refl eq_refl
              (or_intror (ex_intro _ _ (ex_intro _ _ eq_refl))))
    as (bs & s & Hresp & Hbs & Hnum).
  exists bs, s. split; [exact Hresp |].
  apply (Hnum 7).
  - left. reflexivity.
  - cbn. auto.
Defined.

(** * Further properties of the handler

    What the handler does on the paths that the properties above leave
    aside: the unknown channel, the ways a delivery ends, the value Handle
    returns, and what holds of every trace. *)

(** ** Requests under delivery *)
Section Delivery.
Context {E : DeliverEnv}.

(** The session in state [w0] reads [envelope]; the request is accepted,
    its iterator reports [number] and leaves the environment in [w1], and
    the switch settles on [stopNum]. *)
Definition Serving (w0 : World) (envelope : cb.Envelope) (seekInfo : ab.SeekInfo)
           (cursor : Cursor) (number stopNum : uint64) (w1 : World) : Prop :=
  exists w chain start stop,
    srv_Recv w0 = Some (RecvEnvelope envelope, w) /\
    Accepted w envelope chain seekInfo start stop /\
    Reader_Iterator chain start w = ((cursor, number), w1) /\
    Handle_stopNum chain stop number w1 = (Val stopNum, w1, []).

Lemma Handle_serving fuel w0 envelope seekInfo cursor number stopNum w1 :
  Serving w0 envelope seekInfo cursor number stopNum w1 ->
  Handle (S fuel) w0 =
  prepend [EvRecv (RecvEnvelope envelope); EvIterator number]
          ((deliverRange fuel (ab.Behavior seekInfo) cursor stopNum ;;;
            Handle fuel) w1).
Proof.
  intros (w & chain & start & stop & Hrecv & Hacc & Hit & Hstop).
  rewrite (Handle_envelope fuel w0 Hrecv). unfold bind at 1.
  rewrite (serve_accepted fuel Hacc Hit). erewrite stopNum_run by exact Hstop.
  unfold bind.
  destruct (deliverRange fuel (ab.Behavior seekInfo) cursor stopNum w1)
    as [[[[] | o] w2] t2];
    cbn; [destruct (Handle fuel w2) as [[r w3] t3] |]; reflexivity.
Qed.

(** The loop ends the run: so does the session. *)
Lemma serving_loop_halts fuel w0 envelope seekInfo cursor number stopNum w1 o w2 t :
  Serving w0 envelope seekInfo cursor number stopNum w1 ->
  cursorLoop fuel (ab.Behavior seekInfo) cursor stopNum w1 = (Halt o, w2, t) ->
  Handle (S fuel) w0 =
  (Halt o, w2, EvRecv (RecvEnvelope envelope) :: EvIterator number :: t).
Proof.
  intros Hserv Hloop. rewrite (Handle_serving fuel Hserv).
  erewrite bind_halt; [reflexivity |].
  unfold deliverRange. apply bind_halt. exact Hloop.
Qed.

(** The loop breaks: SUCCESS is sent, and the session goes on or ends
    with the error of that send. *)
Lemma serving_loop_breaks fuel w0 envelope seekInfo cursor number stopNum w1 w2 t
      err w3 :
  Serving w0 envelope seekInfo cursor number stopNum w1 ->
  cursorLoop fuel (ab.Behavior seekInfo) cursor stopNum w1 = (Val tt, w2, t) ->
  srv_Send (ab.DeliverResponse_Status cb.Status_SUCCESS) w2 = (err, w3) ->
  Handle (S fuel) w0 =
  match err with
  | None =>
      prepend (EvRecv (RecvEnvelope envelope) :: EvIterator number :: t ++
               [EvSend (ab.DeliverResponse_Status cb.Status_SUCCESS) None])
              (Handle fuel w3)
  | Some e =>
      (Halt (Returned (Some e)), w3,
       EvRecv (RecvEnvelope envelope) :: EvIterator number :: t ++
       [EvSend (ab.DeliverResponse_Status cb.Status_SUCCESS) (Some e)])
  end.
Proof.
  intros Hserv Hloop Hsend. rewrite (Handle_serving fuel Hserv).
  assert (Hrange :
            deliverRange fuel (ab.Behavior seekInfo) cursor stopNum w1 =
            match err with
            | None =>
                (Val tt, w3,
                 t ++ [EvSend (ab.DeliverResponse_Status cb.Status_SUCCESS) None])
            | Some e =>
                (Halt (Returned (Some e)), w3,
                 t ++ [EvSend (ab.DeliverResponse_Status cb.Status_SUCCESS) (Some e)])
            end).
  { unfold deliverRange. erewrite bind_val by exact Hloop.
    unfold bind, sendStatusReply, call. rewrite Hsend.
    destruct err; reflexivity. }
  destruct err as [e |].
  - erewrite bind_halt by exact Hrange. reflexivity.
  - erewrite bind_val by exact Hrange.
    destruct (Handle fuel w3) as [[r w4] t4]. cbn. now rewrite <- app_assoc.
Qed.

(** The loop after deliveries that miss the stop number. *)
Lemma cursorLoop_after fuel behavior cursor stopNum w bs w' :
  Delivers behavior cursor w bs w' ->
  Forall (fun b => blockNumber b <> stopNum) bs ->
  (List.length bs < fuel)%nat ->
  exists k,
    cursorLoop fuel behavior cursor stopNum w =
    prepend (deliveryTrace behavior bs)
            (cursorLoop (S k) behavior cursor stopNum w').
Proof.
  intros Hd Hne Hfuel. exists (fuel - S (List.length bs))%nat.
  replace fuel with (List.length bs + S (fuel - S (List.length bs)))%nat at 1 by lia.
  apply cursorLoop_delivers; assumption.
Qed.

Lemma cursorLoop_reaches_stop fuel behavior cursor stopNum w bs w' b w'' :
  Delivers behavior cursor w bs w' ->
  Forall (fun x => blockNumber x <> stopNum) bs ->
  Delivers1 behavior cursor w' b w'' ->
  blockNumber b = stopNum ->
  (List.length bs < fuel)%nat ->
  cursorLoop fuel behavior cursor stopNum w =
  (Val tt, w'', deliveryTrace behavior (bs ++ [b])).
Proof.
  intros Hd Hne Hlast Hb Hfuel.
  destruct (cursorLoop_after Hd Hne Hfuel) as (k & ->).
  rewrite (cursorLoop_delivers1 k stopNum Hlast), Hb, Z.eqb_refl, deliveryTrace_app.
  unfold prepend. now rewrite app_nil_r.
Qed.

Lemma cursorLoop_fault fuel behavior cursor stopNum w w1 b s w2 err w3 :
  Ready behavior cursor w w1 ->
  Iterator_Next cursor w1 = ((b, s), w2) ->
  s <> cb.Status_SUCCESS ->
  srv_Send (ab.DeliverResponse_Status s) w2 = (err, w3) ->
  cursorLoop (S fuel) behavior cursor stopNum w =
  (Halt (Returned err), w3,
   [readyEvent behavior; EvNext b s; EvSend (ab.DeliverResponse_Status s) err]).
Proof.
  intros Hr Hn Hs Hsend. cbn [cursorLoop].
  erewrite bind_val by (apply awaitReady_Ready; exact Hr).
  erewrite bind_val by (unfold call; rewrite Hn; reflexivity).
  cbn [fst snd].
  destruct s; try contradiction; erewrite reject_run by exact Hsend; reflexivity.
Qed.

Lemma cursorLoop_send_fails fuel behavior cursor stopNum w w1 b w2 e w3 :
  Ready behavior cursor w w1 ->
  Iterator_Next cursor w1 = ((b, cb.Status_SUCCESS), w2) ->
  srv_Send (ab.DeliverResponse_Block b) w2 = (Some e, w3) ->
  cursorLoop (S fuel) behavior cursor stopNum w =
  (Halt (Returned (Some e)), w3,
   [readyEvent behavior; EvNext b cb.Status_SUCCESS;
    EvSend (ab.DeliverResponse_Block b) (Some e)]).
Proof.
  intros Hr Hn Hsend. cbn [cursorLoop].
  erewrite bind_val by (apply awaitReady_Ready; exact Hr).
  erewrite bind_val by (unfold call; rewrite Hn; reflexivity).
  cbn [fst snd].
  erewrite bind_val by (unfold sendBlockReply, call; rewrite Hsend; reflexivity).
  reflexivity.
Qed.

Lemma cursorLoop_never_ready fuel cursor stopNum w :
  ReadyChan_recv cursor w = None ->
  cursorLoop (S fuel) ab.SeekInfo_BLOCK_UNTIL_READY cursor stopNum w =
  (Halt Blocked, w, []).
Proof.
  intros Hr. cbn [cursorLoop awaitReady]. apply bind_halt.
  unfold await. rewrite Hr. reflexivity.
Qed.

Lemma cursorLoop_not_ready fuel cursor stopNum w err w' :
  ReadyChan_ready cursor w = false ->
  srv_Send (ab.DeliverResponse_Status cb.Status_NOT_FOUND) w = (err, w') ->
  cursorLoop (S fuel) ab.SeekInfo_FAIL_IF_NOT_READY cursor stopNum w =
  (Halt (Returned err), w',
   [EvReadyPoll false; EvSend (ab.DeliverResponse_Status cb.Status_NOT_FOUND) err]).
Proof.
  intros Hready Hsend. cbn [cursorLoop awaitReady]. apply bind_halt.
  erewrite bind_val by (unfold call; rewrite Hready; reflexivity).
  cbv beta iota. erewrite reject_run by exact Hsend. reflexivity.
Qed.

(** X1.  A request that decodes down to its channel header but names a
    channel the registry does not know gets one NOT_FOUND status, before
    the signature is looked at or the SeekInfo decoded; Handle returns with
    the result of that send. *)
Theorem unknown_channel_not_found :
  forall fuel w0 w w' envelope payload header chdr err,
    srv_Recv w0 = Some (RecvEnvelope envelope, w) ->
    UnmarshalPayload (cb.EPayload envelope) = Some payload ->
    cb.PHeader payload = Some header ->
    UnmarshalChannelHeader (cb.ChannelHeader_ header) = Some chdr ->
    sm_GetChain (cb.ChannelId chdr) w = None ->
    srv_Send (ab.DeliverResponse_Status cb.Status_NOT_FOUND) w = (err, w') ->
    Handle (S fuel) w0 =
    (Halt (Returned err), w',
     [EvRecv (RecvEnvelope envelope);
      EvSend (ab.DeliverResponse_Status cb.Status_NOT_FOUND) err]).
Proof.
  intros fuel w0 w w' envelope payload header chdr err Hrecv Hp Hh Hc Hg Hsend.
  apply Handle_rejects with (w := w); [exact Hrecv |].
  unfold serve. rewrite Hp. cbn [orElse]. rewrite bind_ret_l, Hh. cbn [orElse].
  rewrite bind_ret_l, Hc. cbn [orElse]. rewrite bind_ret_l, bind_read, Hg.
  cbn [orElse].
  erewrite bind_halt by (apply reject_run; exact Hsend). reflexivity.
Qed.

(** X2.  An accepted request resolved to the range from [number] to
    [stopNum], served by a cursor that is ready for, and yields, blocks
    that miss the stop number and then the one that carries it, over a
    stream that takes every response: each block is sent in turn, then
    SUCCESS, nothing else, and the session is back at reading the next
    message. *)
Theorem range_delivered_then_success :
  forall fuel w0 w1 w2 w3 w4 envelope seekInfo cursor number stopNum bs b,
    Serving w0 envelope seekInfo cursor number stopNum w1 ->
    Delivers (ab.Behavior seekInfo) cursor w1 bs w2 ->
    Forall (fun x => blockNumber x <> stopNum) bs ->
    Delivers1 (ab.Behavior seekInfo) cursor w2 b w3 ->
    blockNumber b = stopNum ->
    srv_Send (ab.DeliverResponse_Status cb.Status_SUCCESS) w3 = (None, w4) ->
    (List.length bs < fuel)%nat ->
    Handle (S fuel) w0 =
    prepend (EvRecv (RecvEnvelope envelope) :: EvIterator number ::
             deliveryTrace (ab.Behavior seekInfo) (bs ++ [b]) ++
             [EvSend (ab.DeliverResponse_Status cb.Status_SUCCESS) None])
            (Handle fuel w4).
Proof.
  intros fuel w0 w1 w2 w3 w4 envelope seekInfo cursor number stopNum bs b
         Hserv Hd Hne Hlast Hb Hsend Hfuel.
  pose proof (cursorLoop_reaches_stop Hd Hne Hlast Hb Hfuel) as Hloop.
  exact (@serving_loop_breaks fuel _ _ _ _ _ _ _ _ _ _ _ Hserv Hloop Hsend).
Qed.

(** X3.  When cursor.Next answers with a status other than SUCCESS, after
    any number of blocks delivered, that very status is sent as the one
    status response of the request and Handle returns with the result of
    the send: the block that came with the status is not sent, and no
    further message is read. *)
Theorem ledger_fault_forwarded :
  forall fuel w0 w1 w2 w3 w4 w5 envelope seekInfo cursor number stopNum bs b s err,
    Serving w0 envelope seekInfo cursor number stopNum w1 ->
    Delivers (ab.Behavior seekInfo) cursor w1 bs w2 ->
    Forall (fun x => blockNumber x <> stopNum) bs ->
    Ready (ab.Behavior seekInfo) cursor w2 w3 ->
    Iterator_Next cursor w3 = ((b, s), w4) ->
    s <> cb.Status_SUCCESS ->
    srv_Send (ab.DeliverResponse_Status s) w4 = (err, w5) ->
    (List.length bs < fuel)%nat ->
    Handle (S fuel) w0 =
    (Halt (Returned err), w5,
     EvRecv (RecvEnvelope envelope) :: EvIterator number ::
     deliveryTrace (ab.Behavior seekInfo) bs ++
     [readyEvent (ab.Behavior seekInfo); EvNext b s;
      EvSend (ab.DeliverResponse_Status s) err]).
Proof.
  intros fuel w0 w1 w2 w3 w4 w5 envelope seekInfo cursor number stopNum bs b s err
         Hserv Hd Hne Hr Hn Hs Hsend Hfuel.
  eapply serving_loop_halts; [exact Hserv |].
  destruct (cursorLoop_after Hd Hne Hfuel) as (k & ->).
  erewrite cursorLoop_fault by eassumption. reflexivity.
Qed.

(** X4.  When the send of a block fails, after any number of blocks
    delivered, Handle returns the error of that send at once: no status
    response is sent for the request and no further message is read. *)
Theorem block_send_failure_ends_session :
  forall fuel w0 w1 w2 w3 w4 w5 envelope seekInfo cursor number stopNum bs b e,
    Serving w0 envelope seekInfo cursor number stopNum w1 ->
    Delivers (ab.Behavior seekInfo) cursor w1 bs w2 ->
    Forall (fun x => blockNumber x <> stopNum) bs ->
    Ready (ab.Behavior seekInfo) cursor w2 w3 ->
    Iterator_Next cursor w3 = ((b, cb.Status_SUCCESS), w4) ->
    srv_Send (ab.DeliverResponse_Block b) w4 = (Some e, w5) ->
    (List.length bs < fuel)%nat ->
    Handle (S fuel) w0 =
    (Halt (Returned (Some e)), w5,
     EvRecv (RecvEnvelope envelope) :: EvIterator number ::
     deliveryTrace (ab.Behavior seekInfo) bs ++
     [readyEvent (ab.Behavior seekInfo); EvNext b cb.Status_SUCCESS;
      EvSend (ab.DeliverResponse_Block b) (Some e)]).
Proof.
  intros fuel w0 w1 w2 w3 w4 w5 envelope seekInfo cursor number stopNum bs b e
         Hserv Hd Hne Hr Hn Hsend Hfuel.
  eapply serving_loop_halts; [exact Hserv |].
  destruct (cursorLoop_after Hd Hne Hfuel) as (k & ->).
  erewrite cursorLoop_send_fails by eassumption. reflexivity.
Qed.

(** X5.  When the whole range went out but the send of the final SUCCESS
    fails, Handle returns the error of that send and the session ends
    instead of reading the next message. *)
Theorem success_send_failure_ends_session :
  forall fuel w0 w1 w2 w3 w4 envelope seekInfo cursor number stopNum bs b e,
    Serving w0 envelope seekInfo cursor number stopNum w1 ->
    Delivers (ab.Behavior seekInfo) cursor w1 bs w2 ->
    Forall (fun x => blockNumber x <> stopNum) bs ->
    Delivers1 (ab.Behavior seekInfo) cursor w2 b w3 ->
    blockNumber b = stopNum ->
    srv_Send (ab.DeliverResponse_Status cb.Status_SUCCESS) w3 = (Some e, w4) ->
    (List.length bs < fuel)%nat ->
    Handle (S fuel) w0 =
    (Halt (Returned (Some e)), w4,
     EvRecv (RecvEnvelope envelope) :: EvIterator number ::
     deliveryTrace (ab.Behavior seekInfo) (bs ++ [b]) ++
     [EvSend (ab.DeliverResponse_Status cb.Status_SUCCESS) (Some e)]).
Proof.
  intros fuel w0 w1 w2 w3 w4 envelope seekInfo cursor number stopNum bs b e
         Hserv Hd Hne Hlast Hb Hsend Hfuel.
  pose proof (cursorLoop_reaches_stop Hd Hne Hlast Hb Hfuel) as Hloop.
  exact (@serving_loop_breaks fuel _ _ _ _ _ _ _ _ _ _ _ Hserv Hloop Hsend).
Qed.

(** X6.  Under BLOCK_UNTIL_READY, when the readiness signal never comes
    after the blocks delivered so far, the handler stays suspended: on any
    budget that covers those deliveries the run is blocked, and nothing
    was sent but those blocks, in particular no status. *)
Theorem waits_for_ever_when_never_ready :
  forall fuel w0 w1 w2 envelope seekInfo cursor number stopNum bs,
    Serving w0 envelope seekInfo cursor number stopNum w1 ->
    ab.Behavior seekInfo = ab.SeekInfo_BLOCK_UNTIL_READY ->
    Delivers (ab.Behavior seekInfo) cursor w1 bs w2 ->
    Forall (fun x => blockNumber x <> stopNum) bs ->
    ReadyChan_recv cursor w2 = None ->
    (List.length bs < fuel)%nat ->
    Handle (S fuel) w0 =
    (Halt Blocked, w2,
     EvRecv (RecvEnvelope envelope) :: EvIterator number ::
     deliveryTrace (ab.Behavior seekInfo) bs) /\
    responses (deliveryTrace (ab.Behavior seekInfo) bs) =
    map ab.DeliverResponse_Block bs.
Proof.
  intros fuel w0 w1 w2 envelope seekInfo cursor number stopNum bs
         Hserv Hbeh Hd Hne Hnever Hfuel.
  split.
  - eapply serving_loop_halts; [exact Hserv |].
    destruct (cursorLoop_after Hd Hne Hfuel) as (k & ->).
    rewrite Hbeh. erewrite cursorLoop_never_ready by eassumption.
    unfold prepend. now rewrite app_nil_r.
  - clear. induction bs as [| b bs IH]; [reflexivity |].
    change (b :: bs) with ([b] ++ bs).
    rewrite deliveryTrace_app, responses_app, IH.
    now destruct (ab.Behavior seekInfo).
Qed.

(** X7.  Under FAIL_IF_NOT_READY, the blocks that are ready are delivered
    and, at the first readiness test that fails, NOT_FOUND follows them
    and Handle returns with the result of that send. *)
Theorem ready_blocks_then_not_found :
  forall fuel w0 w1 w2 w3 envelope seekInfo cursor number stopNum bs err,
    Serving w0 envelope seekInfo cursor number stopNum w1 ->
    ab.Behavior seekInfo = ab.SeekInfo_FAIL_IF_NOT_READY ->
    Delivers (ab.Behavior seekInfo) cursor w1 bs w2 ->
    Forall (fun x => blockNumber x <> stopNum) bs ->
    ReadyChan_ready cursor w2 = false ->
    srv_Send (ab.DeliverResponse_Status cb.Status_NOT_FOUND) w2 = (err, w3) ->
    (List.length bs < fuel)%nat ->
    Handle (S fuel) w0 =
    (Halt (Returned err), w3,
     EvRecv (RecvEnvelope envelope) :: EvIterator number ::
     deliveryTrace (ab.Behavior seekInfo) bs ++
     [EvReadyPoll false;
      EvSend (ab.DeliverResponse_Status cb.Status_NOT_FOUND) err]).
Proof.
  intros fuel w0 w1 w2 w3 envelope seekInfo cursor number stopNum bs err
         Hserv Hbeh Hd Hne Hnot Hsend Hfuel.
  eapply serving_loop_halts; [exact Hserv |].
  destruct (cursorLoop_after Hd Hne Hfuel) as (k & ->).
  rewrite Hbeh. erewrite cursorLoop_not_ready by eassumption. reflexivity.
Qed.

End Delivery.

(** ** A request that finds the cursor not ready *)
Section NotReady.
Context {E : DeliverEnv}.

(** C1, as the code has it.  The session reads a well-formed, authorized
    seek request whose behavior is FAIL_IF_NOT_READY.  It opens the
    iterator, resolves the stop number and delivers the blocks that are
    ready.  At the cursor position where the test of the readiness signal
    finds nothing, it sends NOT_FOUND without waiting and Handle returns
    with the result of that send: the run ends there, with the one read
    that brought the request and no further one.
    The same step seen from the loop alone, and from the session: wherever
    a run of Handle has such a failed test, the one event after it is the
    NOT_FOUND send and the run ends there. *)
Theorem not_ready_sends_not_found_and_returns :
  (forall fuel w0 w w1 w2 w3 envelope chain seekInfo start stop cursor
          number stopNum bs err,
      srv_Recv w0 = Some (RecvEnvelope envelope, w) ->
      Accepted w envelope chain seekInfo start stop ->
      ab.Behavior seekInfo = ab.SeekInfo_FAIL_IF_NOT_READY ->
      Reader_Iterator chain start w = ((cursor, number), w1) ->
      Handle_stopNum chain stop number w1 = (Val stopNum, w1, []) ->
      Delivers (ab.Behavior seekInfo) cursor w1 bs w2 ->
      Forall (fun b => blockNumber b <> stopNum) bs ->
      ReadyChan_ready cursor w2 = false ->
      srv_Send (ab.DeliverResponse_Status cb.Status_NOT_FOUND) w2 = (err, w3) ->
      (List.length bs < fuel)%nat ->
      Handle (S fuel) w0 =
      (Halt (Returned err), w3,
       EvRecv (RecvEnvelope envelope) :: EvIterator number ::
       deliveryTrace ab.SeekInfo_FAIL_IF_NOT_READY bs ++
       [EvReadyPoll false;
        EvSend (ab.DeliverResponse_Status cb.Status_NOT_FOUND) err])) /\
  (forall fuel cursor stopNum w err w',
      ReadyChan_ready cursor w = false ->
      srv_Send (ab.DeliverResponse_Status cb.Status_NOT_FOUND) w = (err, w') ->
      cursorLoop (S fuel) ab.SeekInfo_FAIL_IF_NOT_READY cursor stopNum w =
      (Halt (Returned err), w',
       [EvReadyPoll false;
        EvSend (ab.DeliverResponse_Status cb.Status_NOT_FOUND) err])) /\
  (forall fuel w0 r w' t pre post,
      Handle fuel w0 = (r, w', t) ->
      t = pre ++ EvReadyPoll false :: post ->
      exists err,
        post = [EvSend (ab.DeliverResponse_Status cb.Status_NOT_FOUND) err] /\
        r = Halt (Returned err)).
Proof.
  split; [| split].
  - intros fuel w0 w w1 w2 w3 envelope chain seekInfo start stop cursor
           number stopNum bs err
           Hrecv Hacc Hbeh Hit Hstop Hd Hne Hnot Hsend Hfuel.
    assert (Hserv : Serving w0 envelope seekInfo cursor number stopNum w1)
      by (exists w, chain, start, stop; auto).
    eapply serving_loop_halts; [exact Hserv |].
    destruct (cursorLoop_after Hd Hne Hfuel) as (k & ->).
    rewrite Hbeh. erewrite cursorLoop_not_ready by eassumption. reflexivity.
  - intros fuel cursor stopNum w err w' Hready Hsend.
    eapply cursorLoop_not_ready; eassumption.
  - intros fuel w0 r w' t pre post Hrun Ht.
    eapply SessionTrace_not_ready; [eapply Handle_traces; exact Hrun | exact Ht].
Qed.

End NotReady.

(** ** What holds of every trace *)

(** The events after which Handle returns, with the error it returns:
    the end of the stream, a receive error, a send that fails, and a
    status other than SUCCESS. *)
Definition terminal (e : Event) : option (option error) :=
  match e with
  | EvRecv RecvEOF => Some None
  | EvRecv (RecvError err) => Some (Some err)
  | EvSend _ (Some err) => Some (Some err)
  | EvSend (ab.DeliverResponse_Status cb.Status_SUCCESS) None => None
  | EvSend (ab.DeliverResponse_Status _) None => Some None
  | _ => None
  end.

(** The blocks handed to [srv.Send], in order, whether the send worked or not. *)
Fixpoint sentBlocks (t : list Event) : list cb.Block :=
  match t with
  | [] => []
  | EvSend (ab.DeliverResponse_Block b) _ :: t' => b :: sentBlocks t'
  | _ :: t' => sentBlocks t'
  end.

(** How many events of [t] satisfy [p]. *)
Definition occurrences (p : Event -> bool) (t : list Event) : nat :=
  List.length (filter p t).

Definition isStatus (e : Event) : bool :=
  match e with
  | EvSend (ab.DeliverResponse_Status _) _ => true
  | _ => false
  end.

Definition isIterator (e : Event) : bool :=
  match e with
  | EvIterator _ => true
  | _ => false
  end.

Definition isEnvelope (e : Event) : bool :=
  match e with
  | EvRecv (RecvEnvelope _) => true
  | _ => false
  end.

Section Invariants.
Context {E : DeliverEnv}.

Ltac walk H :=
  match type of H with
  | [] = ?l ++ _ :: _ => destruct l; discriminate H
  | _ :: _ = ?l ++ _ :: _ =>
      let x := fresh "x" in
      let l' := fresh "pre" in
      let Hx := fresh "Hx" in
      let H' := fresh "H" in
      destruct l as [| x l']; cbn [app] in H;
      [ | injection H as Hx H'; subst x; rename H' into H; walk H ]
  | _ => idtac
  end.

Lemma terminal_send m err0 err :
  terminal (EvSend m err0) = Some err -> err = err0.
Proof.
  destruct m as [s | b], err0 as [e |]; cbn; try congruence;
    destruct s; congruence.
Qed.

Lemma terminal_ready behavior : terminal (readyEvent behavior) = None.
Proof. now destruct behavior. Qed.

Lemma LoopTrace_terminal behavior stopNum r t :
  LoopTrace behavior stopNum r t ->
  forall pre e post err,
    t = pre ++ e :: post ->
    terminal e = Some err ->
    post = [] /\ r = Halt (Returned err).
Proof.
  induction 1 as [| Hbeh | err0 Hbeh | b s err0 Hs | b e0 | b Hb | b r t Hb Hrest IH];
    intros pre e post err H Ht; cbn [deliveryTrace flat_map app] in H; walk H.
  all: try (injection H as <- <-).
  all: try (rewrite terminal_ready in Ht; discriminate Ht).
  all: try (cbn in Ht; discriminate Ht).
  all: try (apply terminal_send in Ht; subst; split; reflexivity).
  eapply IH; eassumption.
Qed.

Lemma LoopTrace_break_not_terminal behavior stopNum t :
  LoopTrace behavior stopNum (Val tt) t ->
  forall pre e post err, t = pre ++ e :: post -> terminal e <> Some err.
Proof.
  intros Hloop pre e post err H Ht.
  edestruct LoopTrace_terminal as [_ Hr];
    [exact Hloop | exact H | exact Ht | discriminate Hr].
Qed.

Lemma RequestTrace_terminal r t :
  RequestTrace r t ->
  forall pre e post err,
    t = pre ++ e :: post ->
    terminal e = Some err ->
    post = [] /\ r = Halt (Returned err).
Proof.
  destruct 1 as [status err0 | number err0 | behavior stopNum number o t Hloop
                 | behavior stopNum number t e0 Hloop | behavior stopNum number t Hloop];
    intros pre e post err H Ht; walk H.
  all: try (injection H as <- <-).
  all: try (cbn in Ht; discriminate Ht).
  all: try (apply terminal_send in Ht; subst; split; reflexivity).
  - eapply LoopTrace_terminal; eassumption.
  - apply split_app in H. destruct H as [(l & -> & ->) | (l & -> & H)].
    + exfalso. eapply LoopTrace_break_not_terminal; [exact Hloop | reflexivity | exact Ht].
    + walk H. injection H as <- <-. cbn in Ht. injection Ht as <-. auto.
  - apply split_app in H. destruct H as [(l & -> & ->) | (l & -> & H)].
    + exfalso. eapply LoopTrace_break_not_terminal; [exact Hloop | reflexivity | exact Ht].
    + walk H. injection H as <- <-. cbn in Ht. discriminate Ht.
Qed.

Lemma SessionTrace_terminal r t :
  SessionTrace r t ->
  forall pre e post err,
    t = pre ++ e :: post ->
    terminal e = Some err ->
    post = [] /\ r = Halt (Returned err).
Proof.
  induction 1 as [| | | e0 | envelope o t Hreq | envelope t r t' Hreq Hrest IH];
    intros pre e post err H Ht; walk H.
  all: try (injection H as <- <-).
  all: try (cbn in Ht; first [discriminate Ht | injection Ht as <-; auto]).
  - edestruct RequestTrace_terminal as [-> Ho];
      [exact Hreq | exact H | exact Ht |].
    injection Ho as ->. auto.
  - apply split_app in H. destruct H as [(l & -> & ->) | (l & -> & H)].
    + edestruct RequestTrace_terminal as [_ Hr];
        [exact Hreq | reflexivity | exact Ht | discriminate Hr].
    + eapply IH; eassumption.
Qed.

(** X8.  In any run of Handle, the end of the stream, a receive error, a
    send that fails and a status other than SUCCESS are each the last thing
    that happens: nothing is received or sent after it, and Handle returns
    nil after the end of the stream or a status that went out, and the
    error of the receive or of the send otherwise. *)
Theorem terminal_event_ends_session :
  forall fuel w0 r w' t pre e post err,
    Handle fuel w0 = (r, w', t) ->
    t = pre ++ e :: post ->
    terminal e = Some err ->
    post = [] /\ r = Halt (Returned err).
Proof.
  intros fuel w0 r w' t pre e post err Hrun Ht He.
  eapply SessionTrace_terminal; [eapply Handle_traces; exact Hrun | exact Ht | exact He].
Qed.

Lemma sentBlocks_app t1 t2 : sentBlocks (t1 ++ t2) = sentBlocks t1 ++ sentBlocks t2.
Proof.
  induction t1 as [| e t1 IH]; [reflexivity |].
  destruct e as [| m err | | | |]; cbn; rewrite ?IH; try reflexivity.
  destruct m; reflexivity.
Qed.

Lemma LoopTrace_sent_pulled behavior stopNum r t :
  LoopTrace behavior stopNum r t -> sentBlocks t = pulled t.
Proof.
  induction 1 as [| Hbeh | err0 Hbeh | b s err0 Hs | b e0 | b Hb | b r t Hb Hrest IH];
    try (destruct behavior; reflexivity).
  - destruct behavior, s; try reflexivity; contradiction.
  - rewrite sentBlocks_app, pulled_app, IH. now destruct behavior.
Qed.

Lemma RequestTrace_sent_pulled r t :
  RequestTrace r t -> sentBlocks t = pulled t.
Proof.
  destruct 1 as [status err0 | number err0 | behavior stopNum number o t Hloop
                 | behavior stopNum number t e0 Hloop | behavior stopNum number t Hloop];
    try reflexivity; cbn [sentBlocks pulled];
    rewrite ?sentBlocks_app, ?pulled_app, ?(LoopTrace_sent_pulled Hloop);
    reflexivity.
Qed.

(** X9.  At every point of every run of Handle, the blocks handed to
    srv.Send are exactly the blocks cursor.Next returned with SUCCESS, in
    the same order: no block is sent twice, left out, reordered, or sent
    without having been read from the cursor. *)
Theorem sent_blocks_are_pulled_blocks :
  forall fuel w0 r w' t,
    Handle fuel w0 = (r, w', t) ->
    sentBlocks t = pulled t.
Proof.
  intros fuel w0 r w' t Hrun. apply Handle_traces in Hrun.
  induction Hrun as [| | | e0 | envelope o t Hreq | envelope t r t' Hreq Hrest IH];
    try reflexivity; cbn [sentBlocks pulled].
  - exact (RequestTrace_sent_pulled Hreq).
  - rewrite sentBlocks_app, pulled_app, IH.
    now rewrite (RequestTrace_sent_pulled Hreq).
Qed.

Lemma occurrences_app p t1 t2 :
  occurrences p (t1 ++ t2) = (occurrences p t1 + occurrences p t2)%nat.
Proof. unfold occurrences. now rewrite filter_app, length_app. Qed.

Lemma occurrences_delivery p behavior b :
  p (readyEvent behavior) = false ->
  p (EvNext b cb.Status_SUCCESS) = false ->
  p (EvSend (ab.DeliverResponse_Block b) None) = false ->
  occurrences p (deliveryTrace behavior [b]) = 0%nat.
Proof.
  intros H1 H2 H3. unfold occurrences. cbn. now rewrite H1, H2, H3.
Qed.

Lemma LoopTrace_counts behavior stopNum r t :
  LoopTrace behavior stopNum r t ->
  occurrences isEnvelope t = 0%nat /\
  occurrences isIterator t = 0%nat /\
  (occurrences isStatus t <= 1)%nat /\
  (r = Val tt -> occurrences isStatus t = 0%nat).
Proof.
  induction 1 as [| Hbeh | err0 Hbeh | b s err0 Hs | b e0 | b Hb | b r t Hb Hrest IH].
  1-6: destruct behavior; cbn; repeat split; try lia; discriminate.
  destruct IH as (He & Hi & Hs & Hv).
  rewrite !occurrences_app, !occurrences_delivery, He, Hi
    by now destruct behavior.
  repeat split; try lia. exact Hv.
Qed.

Lemma RequestTrace_counts r t :
  RequestTrace r t ->
  occurrences isEnvelope t = 0%nat /\
  (occurrences isIterator t <= 1)%nat /\
  (occurrences isStatus t <= 1)%nat.
Proof.
  destruct 1 as [status err0 | number err0 | behavior stopNum number o t Hloop
                 | behavior stopNum number t e0 Hloop | behavior stopNum number t Hloop];
    try (cbn; repeat split; lia);
    destruct (LoopTrace_counts Hloop) as (He & Hi & Hs & Hv).
  - change (EvIterator number :: t) with ([EvIterator number] ++ t).
    rewrite !occurrences_app, He, Hi. cbn. repeat split; lia.
  - change (EvIterator number :: t ++ ?x) with ([EvIterator number] ++ t ++ x).
    rewrite !occurrences_app, He, Hi, (Hv eq_refl). cbn. repeat split; lia.
  - change (EvIterator number :: t ++ ?x) with ([EvIterator number] ++ t ++ x).
    rewrite !occurrences_app, He, Hi, (Hv eq_refl). cbn. repeat split; lia.
Qed.

(** X10.  In every run of Handle, each envelope read is answered by at
    most one status response and has the ledger iterator opened for it at
    most once: the trace never holds more statuses, nor more iterators,
    than envelopes read. *)
Theorem one_status_and_one_iterator_per_envelope :
  forall fuel w0 r w' t,
    Handle fuel w0 = (r, w', t) ->
    (occurrences isStatus t <= occurrences isEnvelope t)%nat /\
    (occurrences isIterator t <= occurrences isEnvelope t)%nat.
Proof.
  intros fuel w0 r w' t Hrun. apply Handle_traces in Hrun.
  induction Hrun as [| | | e0 | envelope o t Hreq | envelope t r t' Hreq Hrest IH];
    try (cbn; lia).
  - destruct (RequestTrace_counts Hreq) as (He & Hi & Hs).
    change (EvRecv (RecvEnvelope envelope) :: t)
      with ([EvRecv (RecvEnvelope envelope)] ++ t).
    rewrite !occurrences_app, He. cbn. lia.
  - destruct (RequestTrace_counts Hreq) as (He & Hi & Hs).
    change (EvRecv (RecvEnvelope envelope) :: t ++ t')
      with ([EvRecv (RecvEnvelope envelope)] ++ t ++ t').
    rewrite !occurrences_app, He. cbn. lia.
Qed.

Lemma LoopTrace_no_success behavior stopNum r t :
  LoopTrace behavior stopNum r t ->
  forall err, ~ In (EvSend (ab.DeliverResponse_Status cb.Status_SUCCESS) err) t.
Proof.
  induction 1 as [| Hbeh | err0 Hbeh | b s err0 Hs | b e0 | b Hb | b r t Hb Hrest IH];
    intros err Hin; cbn [deliveryTrace flat_map app In] in Hin.
  all: repeat (destruct Hin as [Hin | Hin];
               [try discriminate Hin; try (destruct behavior; discriminate Hin) |]).
  all: try contradiction.
  - injection Hin as -> _. contradiction.
  - eapply IH. exact Hin.
Qed.

(** X11.  In the delivery of a range, SUCCESS is sent only as the last
    response, directly after the successful send of a block whose number
    is the stop number. *)
Theorem success_only_after_the_stop_block :
  forall fuel behavior cursor stopNum w r w' t err,
    deliverRange fuel behavior cursor stopNum w = (r, w', t) ->
    In (EvSend (ab.DeliverResponse_Status cb.Status_SUCCESS) err) t ->
    exists t0 b,
      t = t0 ++ [EvNext b cb.Status_SUCCESS;
                 EvSend (ab.DeliverResponse_Block b) None;
                 EvSend (ab.DeliverResponse_Status cb.Status_SUCCESS) err] /\
      blockNumber b = stopNum.
Proof.
  intros fuel behavior cursor stopNum w r w' t err. unfold deliverRange, bind at 1.
  destruct (cursorLoop fuel behavior cursor stopNum w) as [[[[] | o] w1] t1] eqn:Hloop;
    apply cursorLoop_traces in Hloop.
  - unfold bind, sendStatusReply, call, returnWith, halt, ret.
    destruct (srv_Send (ab.DeliverResponse_Status cb.Status_SUCCESS) w1)
      as [err1 w2].
    destruct (LoopTrace_break Hloop eq_refl) as (t0 & b & -> & Hb).
    intros Hrun Hin.
    assert (Ht : t = (t0 ++ [EvNext b cb.Status_SUCCESS;
                             EvSend (ab.DeliverResponse_Block b) None]) ++
                     [EvSend (ab.DeliverResponse_Status cb.Status_SUCCESS) err1]).
    { destruct err1; inversion Hrun; reflexivity. }
    subst t. apply in_app_or in Hin. destruct Hin as [Hin | [Hin | []]].
    + exfalso. eapply LoopTrace_no_success; eassumption.
    + injection Hin as ->. exists t0, b. split; [| exact Hb].
      now rewrite <- app_assoc.
  - intros Hrun Hin. inversion Hrun; subst.
    exfalso. eapply LoopTrace_no_success; eassumption.
Qed.

End Invariants.

(** ** What the handler decides about an envelope *)
Section Verdicts.
Context {E : DeliverEnv}.

(** The reasons to turn an envelope down before the ledger is touched,
    with the status each one gets. *)
Inductive TurnedDown (w : World) (envelope : cb.Envelope) : cb.Status -> Prop :=
| TD_malformed :
    Malformed w envelope ->
    TurnedDown w envelope cb.Status_BAD_REQUEST
| TD_unknown_channel payload header chdr :
    UnmarshalPayload (cb.EPayload envelope) = Some payload ->
    cb.PHeader payload = Some header ->
    UnmarshalChannelHeader (cb.ChannelHeader_ header) = Some chdr ->
    sm_GetChain (cb.ChannelId chdr) w = None ->
    TurnedDown w envelope cb.Status_NOT_FOUND
| TD_unauthorized payload chain :
    Routed w envelope payload chain ->
    sf_Apply chain envelope w <> filter.Forward ->
    TurnedDown w envelope cb.Status_FORBIDDEN.

(** Events that read the ledger or carry a block. *)
Definition touchesLedger (e : Event) : bool :=
  match e with
  | EvIterator _ | EvReadyWait | EvReadyPoll _ | EvNext _ _ => true
  | EvSend (ab.DeliverResponse_Block _) _ => true
  | _ => false
  end.

Lemma reject_inv {A} status w (r : Res A) w' t :
  reject status w = (r, w', t) ->
  exists err,
    srv_Send (ab.DeliverResponse_Status status) w = (err, w') /\
    r = Halt (Returned err) /\
    t = [EvSend (ab.DeliverResponse_Status status) err].
Proof.
  unfold reject, sendStatusReply, bind, call, returnWith, halt.
  destruct (srv_Send (ab.DeliverResponse_Status status) w) as [err w2].
  intros H; inversion H; subst. eauto.
Qed.

Lemma Handle_stopNum_cases chain stop number w r w' t :
  Handle_stopNum chain stop number w = (r, w', t) ->
  (exists n err,
      ab.Type_ stop = Some (ab.SeekPosition_Specified n) /\ n < number /\
      srv_Send (ab.DeliverResponse_Status cb.Status_BAD_REQUEST) w = (err, w') /\
      r = Halt (Returned err) /\
      t = [EvSend (ab.DeliverResponse_Status cb.Status_BAD_REQUEST) err]) \/
  (exists stopNum, r = Val stopNum /\ w' = w /\ t = []).
Proof.
  unfold Handle_stopNum.
  destruct (ab.Type_ stop) as [[| | n] |]; try rewrite bind_read;
    try (intros H; inversion H; subst; right; eauto; fail).
  destruct (Z.ltb_spec n number) as [Hlt | Hge].
  - intros H. apply reject_inv in H. destruct H as (err & Hs & -> & ->).
    left. exists n, err. auto.
  - intros H; inversion H; subst; right; eauto.
Qed.

Lemma serve_cases fuel envelope w r w' t :
  serve fuel envelope w = (r, w', t) ->
  (exists status err,
      TurnedDown w envelope status /\
      srv_Send (ab.DeliverResponse_Status status) w = (err, w') /\
      r = Halt (Returned err) /\
      t = [EvSend (ab.DeliverResponse_Status status) err]) \/
  (exists chain seekInfo start stop cursor number w1,
      Accepted w envelope chain seekInfo start stop /\
      Reader_Iterator chain start w = ((cursor, number), w1) /\
      ((exists n err,
           ab.Type_ stop = Some (ab.SeekPosition_Specified n) /\ n < number /\
           srv_Send (ab.DeliverResponse_Status cb.Status_BAD_REQUEST) w1 = (err, w') /\
           r = Halt (Returned err) /\
           t = [EvIterator number;
                EvSend (ab.DeliverResponse_Status cb.Status_BAD_REQUEST) err]) \/
       (exists stopNum t',
           Handle_stopNum chain stop number w1 = (Val stopNum, w1, []) /\
           deliverRange fuel (ab.Behavior seekInfo) cursor stopNum w1 = (r, w', t') /\
           t = EvIterator number :: t'))).
Proof.
  assert (Hdown : forall status,
             TurnedDown w envelope status ->
             @reject E unit status w = (r, w', t) ->
             exists status err,
               TurnedDown w envelope status /\
               srv_Send (ab.DeliverResponse_Status status) w = (err, w') /\
               r = Halt (Returned err) /\
               t = [EvSend (ab.DeliverResponse_Status status) err]).
  { intros status Hd H. apply reject_inv in H. destruct H as (err & Hs & -> & ->).
    exists status, err. auto. }
  unfold serve.
  destruct (UnmarshalPayload (cb.EPayload envelope)) as [payload |] eqn:Hp;
    cbn [orElse];
    [rewrite bind_ret_l
    | rewrite bind_halt_reject; intros H; left; eapply Hdown; [| exact H];
      apply TD_malformed, BadPayload; exact Hp].
  destruct (cb.PHeader payload) as [header |] eqn:Hh; cbn [orElse];
    [rewrite bind_ret_l
    | rewrite bind_halt_reject; intros H; left; eapply Hdown; [| exact H];
      eapply TD_malformed, NoHeader; eassumption].
  destruct (UnmarshalChannelHeader (cb.ChannelHeader_ header)) as [chdr |] eqn:Hc;
    cbn [orElse];
    [rewrite bind_ret_l
    | rewrite bind_halt_reject; intros H; left; eapply Hdown; [| exact H];
      eapply TD_malformed, BadChannelHeader; eassumption].
  rewrite bind_read.
  destruct (sm_GetChain (cb.ChannelId chdr) w) as [chain |] eqn:Hg; cbn [orElse];
    [rewrite bind_ret_l
    | rewrite bind_halt_reject; intros H; left; eapply Hdown; [| exact H];
      eapply TD_unknown_channel; eassumption].
  assert (Hrouted : Routed w envelope payload chain) by (exists header, chdr; auto).
  rewrite bind_read.
  destruct (sf_Apply chain envelope w) eqn:Hf;
    try (intros H; left; eapply Hdown; [| exact H];
         eapply TD_unauthorized; [exact Hrouted | rewrite Hf; discriminate]).
  destruct (Unmarshal_SeekInfo (cb.PData payload)) as [seekInfo |] eqn:Hu;
    cbn [orElse];
    [rewrite bind_ret_l
    | rewrite bind_halt_reject; intros H; left; eapply Hdown; [| exact H];
      eapply TD_malformed, BadSeekInfo; eassumption].
  destruct (ab.Start seekInfo) as [start |] eqn:Hstart;
    [| intros H; left; eapply Hdown; [| exact H];
       eapply TD_malformed, NoStartOrStop; eauto].
  destruct (ab.Stop seekInfo) as [stop |] eqn:Hstop;
    [| intros H; left; eapply Hdown; [| exact H];
       eapply TD_malformed, NoStartOrStop; eauto].
  assert (Hacc : Accepted w envelope chain seekInfo start stop)
    by (exists payload; auto).
  unfold bind at 1, call at 1.
  destruct (Reader_Iterator chain start w) as [[cursor number] w1] eqn:Hit.
  cbn [fst snd].
  destruct ((stopNum <- Handle_stopNum chain stop number ;;
             deliverRange fuel (ab.Behavior seekInfo) cursor stopNum) w1)
    as [[r2 w2] t2] eqn:Hrest.
  intros H; inversion H; subst. cbn [app]. clear H.
  right. exists chain, seekInfo, start, stop, cursor, number, w1.
  split; [exact Hacc | split; [exact Hit |]].
  revert Hrest. unfold bind at 1.
  destruct (Handle_stopNum chain stop number w1) as [[rs ws] ts] eqn:Hs.
  destruct (Handle_stopNum_cases _ _ _ _ Hs)
    as [(n & err & Ht & Hlt & Hsend & -> & ->) | (stopNum & -> & -> & ->)].
  - intros H; inversion H; subst. left. exists n, err. auto.
  - destruct (deliverRange fuel (ab.Behavior seekInfo) cursor stopNum w1)
      as [[r4 w4] t4] eqn:Hd.
    intros H; inversion H; subst. right. exists stopNum. eexists.
    split; [reflexivity | split; [exact Hd | reflexivity]].
Qed.

(** X12.  Whatever the envelope, the handler does one of three things
    with it.  It turns it down with a single status and returns, without
    touching the ledger: BAD_REQUEST when it is malformed, NOT_FOUND when
    its channel is unknown, FORBIDDEN when the signature filter does not
    answer Forward.  Or it accepts it, opens the iterator, and rejects the
    range with BAD_REQUEST because the stop is Specified below the start
    number.  Or it accepts it, opens the iterator, and runs the delivery
    for the stop number the switch settles on. *)
Theorem every_request_is_turned_down_or_delivered :
  forall fuel envelope w r w' t,
    serve fuel envelope w = (r, w', t) ->
    (exists status err,
        TurnedDown w envelope status /\
        srv_Send (ab.DeliverResponse_Status status) w = (err, w') /\
        r = Halt (Returned err) /\
        t = [EvSend (ab.DeliverResponse_Status status) err]) \/
    (exists chain seekInfo start stop cursor number w1,
        Accepted w envelope chain seekInfo start stop /\
        Reader_Iterator chain start w = ((cursor, number), w1) /\
        ((exists n err,
             ab.Type_ stop = Some (ab.SeekPosition_Specified n) /\ n < number /\
             srv_Send (ab.DeliverResponse_Status cb.Status_BAD_REQUEST) w1 = (err, w') /\
             r = Halt (Returned err) /\
             t = [EvIterator number;
                  EvSend (ab.DeliverResponse_Status cb.Status_BAD_REQUEST) err]) \/
         (exists stopNum t',
             Handle_stopNum chain stop number w1 = (Val stopNum, w1, []) /\
             deliverRange fuel (ab.Behavior seekInfo) cursor stopNum w1 = (r, w', t') /\
             t = EvIterator number :: t'))).
Proof.
  intros fuel envelope w r w' t. apply serve_cases.
Qed.

(** X13.  The handler opens the iterator, waits on or tests the cursor,
    reads from it or sends a block only for an envelope that decoded in
    full, named a known channel and passed the signature filter. *)
Theorem ledger_untouched_unless_accepted :
  forall fuel envelope w r w' t e,
    serve fuel envelope w = (r, w', t) ->
    In e t ->
    touchesLedger e = true ->
    exists chain seekInfo start stop,
      Accepted w envelope chain seekInfo start stop.
Proof.
  intros fuel envelope w r w' t e Hrun Hin He.
  destruct (serve_cases _ _ _ Hrun)
    as [(status & err & _ & _ & _ & ->)
       | (chain & seekInfo & start & stop & _ & _ & _ & Hacc & _)].
  - destruct Hin as [<- | []]. discriminate He.
  - eauto.
Qed.

(** *** What Handle returns *)

Lemma terminal_status s err :
  s <> cb.Status_SUCCESS ->
  terminal (EvSend (ab.DeliverResponse_Status s) err) = Some err.
Proof.
  intros Hs. destruct s, err; try reflexivity; contradiction.
Qed.

Lemma LoopTrace_returned behavior stopNum r t :
  LoopTrace behavior stopNum r t ->
  forall err,
    r = Halt (Returned err) ->
    exists pre e, t = pre ++ [e] /\ terminal e = Some err.
Proof.
  induction 1 as [| Hbeh | err0 Hbeh | b s err0 Hs | b e0 | b Hb | b r t Hb Hrest IH];
    intros err Hr; try discriminate Hr; try (injection Hr as <-).
  - exists [EvReadyPoll false], (EvSend (ab.DeliverResponse_Status cb.Status_NOT_FOUND) err0).
    split; [reflexivity | now destruct err0].
  - exists [readyEvent behavior; EvNext b s], (EvSend (ab.DeliverResponse_Status s) err0).
    split; [reflexivity | now apply terminal_status].
  - exists [readyEvent behavior; EvNext b cb.Status_SUCCESS],
      (EvSend (ab.DeliverResponse_Block b) (Some e0)).
    split; reflexivity.
  - destruct (IH _ Hr) as (pre & e & -> & He).
    exists (deliveryTrace behavior [b] ++ pre), e.
    split; [now rewrite app_assoc | exact He].
Qed.

Lemma deliverRange_returned fuel behavior cursor stopNum w err w' t :
  deliverRange fuel behavior cursor stopNum w = (Halt (Returned err), w', t) ->
  exists pre e, t = pre ++ [e] /\ terminal e = Some err.
Proof.
  unfold deliverRange, bind at 1.
  destruct (cursorLoop fuel behavior cursor stopNum w) as [[[[] | o] w1] t1] eqn:Hloop;
    apply cursorLoop_traces in Hloop.
  - unfold bind, sendStatusReply, call, returnWith, halt, ret.
    destruct (srv_Send (ab.DeliverResponse_Status cb.Status_SUCCESS) w1)
      as [[e |] w2]; intros H; inversion H; subst.
    exists t1, (EvSend (ab.DeliverResponse_Status cb.Status_SUCCESS) (Some e)).
    split; reflexivity.
  - intros H; inversion H; subst.
    eapply LoopTrace_returned; [exact Hloop | reflexivity].
Qed.

Lemma serve_returned fuel envelope w err w' t :
  serve fuel envelope w = (Halt (Returned err), w', t) ->
  exists pre e, t = pre ++ [e] /\ terminal e = Some err.
Proof.
  intros Hrun.
  destruct (serve_cases _ _ _ Hrun)
    as [(status & err0 & Hdown & _ & Hr & ->)
       | (chain & seekInfo & start & stop & cursor & number & w1 & _ & _ &
          [(n & err0 & _ & _ & _ & Hr & ->) | (stopNum & t' & _ & Hd & ->)])].
  - injection Hr as ->.
    exists [], (EvSend (ab.DeliverResponse_Status status) err0).
    split; [reflexivity |]. apply terminal_status. destruct Hdown; discriminate.
  - injection Hr as ->.
    exists [EvIterator number],
      (EvSend (ab.DeliverResponse_Status cb.Status_BAD_REQUEST) err0).
    split; [reflexivity | now destruct err0].
  - destruct (deliverRange_returned _ _ _ _ _ Hd) as (pre & e & -> & He).
    exists (EvIterator number :: pre), e. split; [reflexivity | exact He].
Qed.

(** X14.  Handle returns only right after the end of the stream, a
    receive error, a send that failed, or a status other than SUCCESS that
    went out, and that is the last event of the run.  It returns the error
    of that receive or send, and nil when there was none: a non-nil return
    value is always an error that the stream reported. *)
Theorem return_value_comes_from_the_last_event :
  forall fuel w0 err w' t,
    Handle fuel w0 = (Halt (Returned err), w', t) ->
    exists pre e, t = pre ++ [e] /\ terminal e = Some err.
Proof.
  induction fuel as [| fuel IH]; intros w0 err w' t.
  - intros H; inversion H.
  - cbn [Handle]. unfold bind at 1, await.
    destruct (srv_Recv w0) as [[[| e0 | envelope] w1] |].
    + intros H; inversion H; subst. exists [], (EvRecv RecvEOF). auto.
    + intros H; inversion H; subst. exists [], (EvRecv (RecvError e0)). auto.
    + unfold bind.
      destruct (serve fuel envelope w1) as [[[[] | o] w2] t2] eqn:Hs.
      * destruct (Handle fuel w2) as [[r3 w3] t3] eqn:Hh.
        intros H; inversion H; subst.
        destruct (IH _ _ _ _ Hh) as (pre & e & -> & He).
        exists (EvRecv (RecvEnvelope envelope) :: t2 ++ pre), e.
        split; [cbn; now rewrite <- app_assoc | exact He].
      * intros H; inversion H; subst.
        destruct (serve_returned _ _ _ Hs) as (pre & e & -> & He).
        exists (EvRecv (RecvEnvelope envelope) :: pre), e.
        split; [reflexivity | exact He].
    + intros H; inversion H.
Qed.

(** X15.  With stop position Newest on a ledger that holds at least one
    block, the stop number is height - 1 exactly: it does not wrap, stays
    a uint64 and lies below the height. *)
Theorem newest_stop_is_the_last_block :
  forall chain stop number w,
    ab.Type_ stop = Some ab.SeekPosition_Newest ->
    is_uint64 (Reader_Height chain w) ->
    0 < Reader_Height chain w ->
    Handle_stopNum chain stop number w = (Val (Reader_Height chain w - 1), w, []) /\
    is_uint64 (Reader_Height chain w - 1) /\
    Reader_Height chain w - 1 < Reader_Height chain w.
Proof.
  intros chain stop number w Ht Hrange Hpos. split.
  - unfold Handle_stopNum. rewrite Ht, bind_read.
    now rewrite (wrap64_pred Hrange Hpos).
  - unfold is_uint64 in *. lia.
Qed.

End Verdicts.

(** ** Further concrete cases *)

(** More requests and ledgers for the concrete environment, and a variant
    of it whose stream takes only a given number of sends. *)
Module Cases.

Definition waitFrom1To5 : cb.Envelope :=
  Demo.seek Byte.x00 Byte.x03 Byte.x01 Byte.x03 Byte.x05.
Definition waitFrom8To200 : cb.Envelope :=
  Demo.seek Byte.x00 Byte.x03 Byte.x08 Byte.x03 Byte.xc8.
Definition failFrom8To12 : cb.Envelope :=
  Demo.seek Byte.x01 Byte.x03 Byte.x08 Byte.x03 Byte.x0c.

(** A well-formed, signed request for a channel that does not exist. *)
Definition forNoChannel : cb.Envelope :=
  {| cb.EPayload := [Byte.x02; Byte.x00; Byte.x01; Byte.x00; Byte.x01; Byte.x00];
     cb.Signature := [Byte.x01] |}.

(** A ledger that has pruned blocks 0 to 2 and retains 3 to 9. *)
Definition pruned (msgs : list cb.Envelope) : Demo.world :=
  {| Demo.inbox := map RecvEnvelope msgs; Demo.linkUp := true; Demo.oldest := 3;
     Demo.height := 10; Demo.writer := false; Demo.pos := 0 |}.

(** The concrete environment over a stream that takes [n] more sends and
    fails on every later one. *)
Definition flakySend (m : ab.DeliverResponse) (wn : Demo.world * nat)
  : option error * (Demo.world * nat) :=
  match snd wn with
  | O => (Some "transport is closing"%string, wn)
  | S n => (None, (fst wn, n))
  end.

#[export] Instance flaky : DeliverEnv := {|
  World := Demo.world * nat;
  Support := unit;
  Cursor := unit;
  UnmarshalPayload := Demo.unmarshalPayload;
  UnmarshalChannelHeader := Demo.unmarshalChannelHeader;
  Unmarshal_SeekInfo := Demo.unmarshalSeekInfo;
  srv_Recv := fun wn =>
    option_map (fun rw => (fst rw, (snd rw, snd wn))) (Demo.recv (fst wn));
  srv_Send := flakySend;
  sm_GetChain := fun id wn => Demo.getChain id (fst wn);
  sf_Apply := fun chain envelope wn => Demo.apply chain envelope (fst wn);
  Reader_Iterator := fun chain start wn =>
    (fst (Demo.iterator chain start (fst wn)),
     (snd (Demo.iterator chain start (fst wn)), snd wn));
  Reader_Height := fun _ wn => Demo.height (fst wn);
  ReadyChan_recv := fun c wn =>
    option_map (fun w => (w, snd wn)) (Demo.waitReady c (fst wn));
  ReadyChan_ready := fun c wn => Demo.ready c (fst wn);
  Iterator_Next := fun c wn =>
    (fst (Demo.next c (fst wn)), (snd (Demo.next c (fst wn)), snd wn))
|}.

End Cases.

(** Proves [Serving] by running the environment. *)
Ltac serving := unfold Serving; decode.

(** X1 on a request for a channel the registry does not know. *)
Lemma unknown_channel_not_found_witness :
  Handle (E := Demo.env) 1 (Demo.idle [Cases.forNoChannel]) =
  (Halt (Returned None), Demo.idle [],
   [EvRecv (RecvEnvelope Cases.forNoChannel);
    EvSend (StatusReply cb.Status_NOT_FOUND) None]).
Proof.
  eapply (@unknown_channel_not_found Demo.env 0); reflexivity.
Defined.

(** X2 on the request for blocks 7 to 8. *)
Lemma range_delivered_then_success_witness :
  Handle (E := Demo.env) 3 (Demo.idle [Demo.waitFrom7To8]) =
  prepend (EvRecv (RecvEnvelope Demo.waitFrom7To8) :: Demo.servedFrom7To8)
          (Handle (E := Demo.env) 2 (Demo.idleAt 9 [])).
Proof.
  eapply (@range_delivered_then_success Demo.env 2)
    with (seekInfo := Demo.waiting (Demo.specified 7) (Demo.specified 8))
         (bs := [Demo.mkBlock 7]) (b := Demo.mkBlock 8).
  - serving.
  - deliver.
  - repeat constructor; discriminate.
  - deliver1.
  - reflexivity.
  - reflexivity.
  - cbn. lia.
Defined.

(** X3 on a request that starts below the retained blocks: the ledger
    answers NOT_FOUND to the first read, and that status goes out. *)
Lemma ledger_fault_forwarded_witness :
  Handle (E := Demo.env) 2 (Cases.pruned [Cases.waitFrom1To5]) =
  (Halt (Returned None), Demo.moveTo 1 (Cases.pruned []),
   [EvRecv (RecvEnvelope Cases.waitFrom1To5);
    EvIterator 1;
    EvReadyWait;
    EvNext (Demo.mkBlock 0) cb.Status_NOT_FOUND;
    EvSend (StatusReply cb.Status_NOT_FOUND) None]).
Proof.
  eapply (@ledger_fault_forwarded Demo.env 1)
    with (seekInfo := Demo.waiting (Demo.specified 1) (Demo.specified 5))
         (bs := []).
  - serving.
  - deliver.
  - constructor.
  - reflexivity.
  - reflexivity.
  - discriminate.
  - reflexivity.
  - cbn. lia.
Defined.

(** X4 on a stream that takes one send: block 7 goes out, the send of
    block 8 fails, and Handle returns that error. *)
Lemma block_send_failure_ends_session_witness :
  Handle (E := Cases.flaky) 3 (Demo.idle [Demo.waitFrom7To8], 1%nat) =
  (Halt (Returned (Some "transport is closing"%string)), (Demo.idleAt 9 [], 0%nat),
   [EvRecv (RecvEnvelope Demo.waitFrom7To8);
    EvIterator 7;
    EvReadyWait; EvNext (Demo.mkBlock 7) cb.Status_SUCCESS;
    EvSend (BlockReply (Demo.mkBlock 7)) None;
    EvReadyWait; EvNext (Demo.mkBlock 8) cb.Status_SUCCESS;
    EvSend (BlockReply (Demo.mkBlock 8)) (Some "transport is closing"%string)]).
Proof.
  eapply (@block_send_failure_ends_session Cases.flaky 2)
    with (seekInfo := Demo.waiting (Demo.specified 7) (Demo.specified 8))
         (bs := [Demo.mkBlock 7]).
  - serving.
  - deliver.
  - repeat constructor; discriminate.
  - reflexivity.
  - reflexivity.
  - reflexivity.
  - cbn. lia.
Defined.

(** X5 on a stream that takes two sends: blocks 7 and 8 go out, the send
    of SUCCESS fails, and Handle returns that error. *)
Lemma success_send_failure_ends_session_witness :
  Handle (E := Cases.flaky) 3 (Demo.idle [Demo.waitFrom7To8], 2%nat) =
  (Halt (Returned (Some "transport is closing"%string)), (Demo.idleAt 9 [], 0%nat),
   [EvRecv (RecvEnvelope Demo.waitFrom7To8);
    EvIterator 7;
    EvReadyWait; EvNext (Demo.mkBlock 7) cb.Status_SUCCESS;
    EvSend (BlockReply (Demo.mkBlock 7)) None;
    EvReadyWait; EvNext (Demo.mkBlock 8) cb.Status_SUCCESS;
    EvSend (BlockReply (Demo.mkBlock 8)) None;
    EvSend (StatusReply cb.Status_SUCCESS) (Some "transport is closing"%string)]).
Proof.
  eapply (@success_send_failure_ends_session Cases.flaky 2)
    with (seekInfo := Demo.waiting (Demo.specified 7) (Demo.specified 8))
         (bs := [Demo.mkBlock 7]) (b := Demo.mkBlock 8).
  - serving.
  - deliver.
  - repeat constructor; discriminate.
  - deliver1.
  - reflexivity.
  - reflexivity.
  - cbn. lia.
Defined.

(** X6 on a request for blocks 8 to 200 of the ledger that ends at block
    9, with nobody appending: blocks 8 and 9 go out and the handler waits. *)
Lemma waits_for_ever_when_never_ready_witness :
  Handle (E := Demo.env) 4 (Demo.idle [Cases.waitFrom8To200]) =
  (Halt Blocked, Demo.idleAt 10 [],
   EvRecv (RecvEnvelope Cases.waitFrom8To200) :: EvIterator 8 ::
   deliveryTrace ab.SeekInfo_BLOCK_UNTIL_READY [Demo.mkBlock 8; Demo.mkBlock 9]) /\
  responses (deliveryTrace ab.SeekInfo_BLOCK_UNTIL_READY
                           [Demo.mkBlock 8; Demo.mkBlock 9]) =
  [BlockReply (Demo.mkBlock 8); BlockReply (Demo.mkBlock 9)].
Proof.
  eapply (@waits_for_ever_when_never_ready Demo.env 3)
    with (seekInfo := Demo.waiting (Demo.specified 8) (Demo.specified 200))
         (stopNum := 200).
  - serving.
  - reflexivity.
  - deliver.
  - repeat constructor; discriminate.
  - reflexivity.
  - cbn. lia.
Defined.

(** X7 on the same range under FAIL_IF_NOT_READY: blocks 8 and 9 go out,
    then NOT_FOUND. *)
Lemma ready_blocks_then_not_found_witness :
  Handle (E := Demo.env) 4 (Demo.idle [Cases.failFrom8To12]) =
  (Halt (Returned None), Demo.idleAt 10 [],
   EvRecv (RecvEnvelope Cases.failFrom8To12) :: EvIterator 8 ::
   deliveryTrace ab.SeekInfo_FAIL_IF_NOT_READY [Demo.mkBlock 8; Demo.mkBlock 9] ++
   [EvReadyPoll false; EvSend (StatusReply cb.Status_NOT_FOUND) None]).
Proof.
  eapply (@ready_blocks_then_not_found Demo.env 3)
    with (seekInfo := {| ab.Start := Some (Demo.specified 8);
                         ab.Stop := Some (Demo.specified 12);
                         ab.Behavior := ab.SeekInfo_FAIL_IF_NOT_READY |})
         (stopNum := 12).
  - serving.
  - reflexivity.
  - deliver.
  - repeat constructor; discriminate.
  - reflexivity.
  - reflexivity.
  - cbn. lia.
Defined.

(** X8 on the session that reads a request for blocks 10 to 12 under
    FAIL_IF_NOT_READY with a second request queued: the NOT_FOUND status is
    the last event and Handle returns nil. *)
Lemma terminal_event_ends_session_witness :
  Handle (E := Demo.env) 5 (Demo.idle [Demo.failFrom10To12; Demo.failOldestToOldest]) =
  (Halt (Returned None), Demo.idleAt 10 [Demo.failOldestToOldest],
   [EvRecv (RecvEnvelope Demo.failFrom10To12); EvIterator 10; EvReadyPoll false] ++
   EvSend (StatusReply cb.Status_NOT_FOUND) None :: []) /\
  (@nil Event = [] /\ @Halt Empty_set (Returned None) = Halt (Returned None)).
Proof.
  split; [reflexivity |].
  eapply (@terminal_event_ends_session Demo.env 5%nat
            (Demo.idle [Demo.failFrom10To12; Demo.failOldestToOldest])
            _ _ _
            [EvRecv (RecvEnvelope Demo.failFrom10To12); EvIterator 10; EvReadyPoll false]
            (EvSend (StatusReply cb.Status_NOT_FOUND) None));
    reflexivity.
Defined.

(** X9 on the session that serves blocks 7 and 8 and then turns a second
    request down. *)
Lemma sent_blocks_are_pulled_blocks_witness :
  sentBlocks
    (snd (Handle (E := Demo.env) 5
            (Demo.idle [Demo.waitFrom7To8; Demo.failFrom10To12]))) =
  [Demo.mkBlock 7; Demo.mkBlock 8] /\
  pulled
    (snd (Handle (E := Demo.env) 5
            (Demo.idle [Demo.waitFrom7To8; Demo.failFrom10To12]))) =
  [Demo.mkBlock 7; Demo.mkBlock 8].
Proof.
  split; [reflexivity |].
  destruct (Handle (E := Demo.env) 5
              (Demo.idle [Demo.waitFrom7To8; Demo.failFrom10To12]))
    as [[r w'] t] eqn:Hrun.
  cbn [snd]. rewrite <- (@sent_blocks_are_pulled_blocks Demo.env _ _ _ _ _ Hrun).
  vm_compute in Hrun. injection Hrun as _ _ <-. reflexivity.
Defined.

(** X10 on the same session: two envelopes, two statuses, two iterators. *)
Lemma one_status_and_one_iterator_per_envelope_witness :
  (occurrences isStatus
     (snd (Handle (E := Demo.env) 5
             (Demo.idle [Demo.waitFrom7To8; Demo.failFrom10To12]))) <= 2)%nat /\
  (occurrences isIterator
     (snd (Handle (E := Demo.env) 5
             (Demo.idle [Demo.waitFrom7To8; Demo.failFrom10To12]))) <= 2)%nat.
Proof.
  destruct (Handle (E := Demo.env) 5
              (Demo.idle [Demo.waitFrom7To8; Demo.failFrom10To12]))
    as [[r w'] t] eqn:Hrun.
  pose proof (@one_status_and_one_iterator_per_envelope Demo.env _ _ _ _ _ Hrun)
    as Hcount.
  cbn [snd]. vm_compute in Hrun. injection Hrun as _ _ <-. exact Hcount.
Defined.

(** X11 on the delivery of blocks 7 to 8. *)
Lemma success_only_after_the_stop_block_witness :
  exists t0 b,
    tl Demo.servedFrom7To8 =
    t0 ++ [EvNext b cb.Status_SUCCESS;
           EvSend (BlockReply b) None;
           EvSend (StatusReply cb.Status_SUCCESS) None] /\
    blockNumber b = 8.
Proof.
  eapply (@success_only_after_the_stop_block Demo.env 3
            ab.SeekInfo_BLOCK_UNTIL_READY tt 8 (Demo.idleAt 7 [])
            (Val tt) (Demo.idleAt 9 [])).
  - reflexivity.
  - cbn. auto 10.
Defined.

(** X12 and X13 on the request for blocks 7 to 8: it is not turned down,
    so it is an accepted one. *)
Lemma every_request_is_turned_down_or_delivered_witness :
  exists chain seekInfo start stop,
    Accepted (E := Demo.env) (Demo.idle []) Demo.waitFrom7To8 chain seekInfo start stop.
Proof.
  destruct (@every_request_is_turned_down_or_delivered Demo.env
              3%nat Demo.waitFrom7To8 (Demo.idle [])
              (Val tt) (Demo.idleAt 9 []) Demo.servedFrom7To8 eq_refl)
    as [(status & err & _ & _ & Hr & _)
       | (chain & seekInfo & start & stop & _ & _ & _ & Hacc & _)].
  - discriminate Hr.
  - exists chain, seekInfo, start, stop. exact Hacc.
Defined.

Lemma ledger_untouched_unless_accepted_witness :
  exists chain seekInfo start stop,
    Accepted (E := Demo.env) (Demo.idle []) Demo.waitFrom7To8 chain seekInfo start stop.
Proof.
  eapply (@ledger_untouched_unless_accepted Demo.env
            3%nat Demo.waitFrom7To8 (Demo.idle [])
            (Val tt) (Demo.idleAt 9 []) Demo.servedFrom7To8
            (EvSend (BlockReply (Demo.mkBlock 8)) None)).
  - reflexivity.
  - cbn. auto 10.
  - reflexivity.
Defined.

(** X14 on the session that ends on a failed send of block 8. *)
Lemma return_value_comes_from_the_last_event_witness :
  exists pre e,
    snd (Handle (E := Cases.flaky) 3 (Demo.idle [Demo.waitFrom7To8], 1%nat)) =
    pre ++ [e] /\
    terminal e = Some (Some "transport is closing"%string).
Proof.
  eapply (@return_value_comes_from_the_last_event Cases.flaky 3%nat
            (Demo.idle [Demo.waitFrom7To8], 1%nat)).
  reflexivity.
Defined.

(** X15 on the ledger of height 10. *)
Lemma newest_stop_is_the_last_block_witness :
  Handle_stopNum (E := Demo.env) tt Demo.newestPos 5 (Demo.idleAt 5 []) =
  (Val 9, Demo.idleAt 5 [], []) /\
  is_uint64 9 /\ 9 < 10.
Proof.
  apply (@newest_stop_is_the_last_block Demo.env tt Demo.newestPos 5
           (Demo.idleAt 5 [])).
  - reflexivity.
  - split; [discriminate | reflexivity].
  - reflexivity.
Defined.

(** C1 on the idle ledger, whose newest block is 9, under
    FAIL_IF_NOT_READY.  A request for blocks 10 to 12, with a second
    request queued behind it: NOT_FOUND at once, Handle returns nil and the
    second request stays unread.  A request for blocks 8 to 12: blocks 8
    and 9, then NOT_FOUND, and Handle returns nil.  The loop alone with the
    cursor at 10, and what follows the failed test in the first session. *)
Lemma not_ready_sends_not_found_and_returns_witness :
  Handle (E := Demo.env) 2 (Demo.idle [Demo.failFrom10To12; Demo.failOldestToOldest]) =
  (Halt (Returned None), Demo.idleAt 10 [Demo.failOldestToOldest],
   [EvRecv (RecvEnvelope Demo.failFrom10To12);
    EvIterator 10;
    EvReadyPoll false;
    EvSend (StatusReply cb.Status_NOT_FOUND) None]) /\
  Handle (E := Demo.env) 4 (Demo.idle [Cases.failFrom8To12]) =
  (Halt (Returned None), Demo.idleAt 10 [],
   [EvRecv (RecvEnvelope Cases.failFrom8To12);
    EvIterator 8;
    EvReadyPoll true; EvNext (Demo.mkBlock 8) cb.Status_SUCCESS;
    EvSend (BlockReply (Demo.mkBlock 8)) None;
    EvReadyPoll true; EvNext (Demo.mkBlock 9) cb.Status_SUCCESS;
    EvSend (BlockReply (Demo.mkBlock 9)) None;
    EvReadyPoll false;
    EvSend (StatusReply cb.Status_NOT_FOUND) None]) /\
  cursorLoop (E := Demo.env) 1 ab.SeekInfo_FAIL_IF_NOT_READY tt 12 (Demo.idleAt 10 []) =
  (Halt (Returned None), Demo.idleAt 10 [],
   [EvReadyPoll false; EvSend (StatusReply cb.Status_NOT_FOUND) None]) /\
  exists err,
    [EvSend (StatusReply cb.Status_NOT_FOUND) None] =
    [EvSend (StatusReply cb.Status_NOT_FOUND) err] /\
    @Halt Empty_set (Returned None) = Halt (Returned err).
Proof.
  split; [| split; [| split]].
  - eapply (proj1 (@not_ready_sends_not_found_and_returns Demo.env) 1%nat)
      with (seekInfo := {| ab.Start := Some (Demo.specified 10);
                           ab.Stop := Some (Demo.specified 12);
                           ab.Behavior := ab.SeekInfo_FAIL_IF_NOT_READY |})
           (stopNum := 12) (bs := []).
    + reflexivity.
    + decode.
    + reflexivity.
    + reflexivity.
    + reflexivity.
    + deliver.
    + constructor.
    + reflexivity.
    + reflexivity.
    + cbn. lia.
  - eapply (proj1 (@not_ready_sends_not_found_and_returns Demo.env) 3%nat)
      with (seekInfo := {| ab.Start := Some (Demo.specified 8);
                           ab.Stop := Some (Demo.specified 12);
                           ab.Behavior := ab.SeekInfo_FAIL_IF_NOT_READY |})
           (stopNum := 12) (bs := [Demo.mkBlock 8; Demo.mkBlock 9]).
    + reflexivity.
    + decode.
    + reflexivity.
    + reflexivity.
    + reflexivity.
    + deliver.
    + repeat constructor; discriminate.
    + reflexivity.
    + reflexivity.
    + cbn. lia.
  - apply (proj1 (proj2 (@not_ready_sends_not_found_and_returns Demo.env)));
      reflexivity.
  - eapply (proj2 (proj2 (@not_ready_sends_not_found_and_returns Demo.env))
                 5%nat (Demo.idle [Demo.failFrom10To12; Demo.failOldestToOldest])
                 (Halt (Returned None))
                 (Demo.idleAt 10 [Demo.failOldestToOldest])
                 _
                 [EvRecv (RecvEnvelope Demo.failFrom10To12); EvIterator 10]
                 [EvSend (StatusReply cb.Status_NOT_FOUND) None]);
      reflexivity.
Defined.
